(** * microblog.pub federation engine: data model, retention pruner,
      delivery queue and uniqueness constraints.

    The tables of [activitypub/models.py] are embedded as lists of records
    (a table is an ordered bag of rows), SQL [NULL] as [None], and SQL
    conditions in their three-valued logic: a [WHERE] clause keeps a row only
    when it evaluates to TRUE.  Timestamps are [Z], a number of microseconds
    (the resolution of a Python [datetime]). *)

From Stdlib Require Import ZArith List String Ascii Bool Lia Sorted.
From Stdlib Require Import DecimalString.
Import ListNotations.
Open Scope string_scope.
Open Scope list_scope.
Open Scope Z_scope.

(** ** SQL three-valued logic *)

Module Sql.

(** [None] is SQL's UNKNOWN (the value of a comparison with NULL). *)
Definition tri := option bool.

Definition TRUE : tri := Some true.
Definition FALSE : tri := Some false.
Definition UNKNOWN : tri := None.

Definition not_ (a : tri) : tri := option_map negb a.

Definition and2 (a b : tri) : tri :=
  match a, b with
  | Some false, _ | _, Some false => Some false
  | Some true, Some true => Some true
  | _, _ => None
  end.

Definition or2 (a b : tri) : tri :=
  match a, b with
  | Some true, _ | _, Some true => Some true
  | Some false, Some false => Some false
  | _, _ => None
  end.

(** [and_(c1, ..., cn)] and [or_(c1, ..., cn)]; several arguments of
    [.where(...)] are joined by AND. *)
Definition and_ (cs : list tri) : tri := fold_right and2 TRUE cs.
Definition or_ (cs : list tri) : tri := fold_right or2 FALSE cs.

(** A row is selected by a WHERE clause only when the clause is TRUE. *)
Definition holds (c : tri) : bool :=
  match c with Some true => true | _ => false end.

(** [col.is_(False)] / [col.is_(True)] on a NOT NULL boolean column. *)
Definition is_ (col v : bool) : tri := Some (Bool.eqb col v).

(** [col.is_(None)] and [col.is_not(None)]: never UNKNOWN. *)
Definition is_null {A} (col : option A) : tri :=
  Some (match col with None => true | Some _ => false end).
Definition is_not_null {A} (col : option A) : tri :=
  Some (match col with None => false | Some _ => true end).

(** SQLite's LIKE: [%] matches any run of characters, [_] one character,
    any other character matches itself up to ASCII case. *)
Definition lower (c : ascii) : ascii :=
  let n := nat_of_ascii c in
  if (Nat.leb 65 n && Nat.leb n 90)%bool then ascii_of_nat (n + 32) else c.

Definition eq_nocase (c d : ascii) : bool := Ascii.eqb (lower c) (lower d).

Fixpoint like_match (pat s : string) {struct pat} : bool :=
  match pat with
  | EmptyString => match s with EmptyString => true | _ => false end
  | String c pat' =>
      if Ascii.eqb c "%"%char then
        (fix star (s : string) : bool :=
           like_match pat' s
           || match s with
              | EmptyString => false
              | String _ s' => star s'
              end) s
      else
        match s with
        | EmptyString => false
        | String d s' =>
            (Ascii.eqb c "_"%char || eq_nocase c d) && like_match pat' s'
        end
  end.

Definition like (col : option string) (pat : string) : tri :=
  option_map (like_match pat) col.
Definition not_like (col : option string) (pat : string) : tri :=
  not_ (like col pat).

(** [col.in_([...])] and [col.not_in(...)] against a list without NULLs
    (a literal list, or a subquery whose rows are filtered IS NOT NULL).
    A NULL column against a non-empty list is UNKNOWN. *)
Definition mem (s : string) (l : list string) : bool :=
  existsb (String.eqb s) l.

Definition in_ (col : option string) (l : list string) : tri :=
  match col, l with
  | _, [] => Some false
  | None, _ => None
  | Some s, _ => Some (mem s l)
  end.
Definition not_in (col : option string) (l : list string) : tri :=
  not_ (in_ col l).

(** [func.distinct(col)]: each value once, first occurrence kept. *)
Fixpoint distinct (l : list string) : list string :=
  match l with
  | [] => []
  | x :: l' => x :: filter (fun y => negb (String.eqb x y)) (distinct l')
  end.

(** [delete(T).where(c)]: the rows on which [c] is TRUE go. *)
Definition delete_where {R} (c : R -> tri) (table : list R) : list R :=
  filter (fun r => negb (holds (c r))) table.

End Sql.

(** ** Time *)

Definition datetime := Z.

(** [timedelta(days=d)], in microseconds. *)
Definition timedelta_days (d : Z) : Z := d * 86400000000.

(** ** The object store ([activitypub/models.py]) *)

(** [ap.VisibilityEnum]. *)
Inductive VisibilityEnum := PUBLIC | UNLISTED | FOLLOWERS_ONLY | DIRECT.

Definition VisibilityEnum_eqb (a b : VisibilityEnum) : bool :=
  match a, b with
  | PUBLIC, PUBLIC | UNLISTED, UNLISTED
  | FOLLOWERS_ONLY, FOLLOWERS_ONLY | DIRECT, DIRECT => true
  | _, _ => false
  end.

(** Table [inbox]. *)
Module Inbox.
Record InboxObject := mk {
  id : Z;
  created_at : datetime;
  actor_id : Z;
  ap_type : string;
  ap_id : string;
  ap_published_at : datetime;
  (** [ap_object["inReplyTo"]] of the JSON document *)
  in_reply_to : option string;
  activity_object_ap_id : option string;
  visibility : VisibilityEnum;
  conversation : option string;
  has_local_mention : bool;
  relates_to_inbox_object_id : option Z;
  relates_to_outbox_object_id : option Z;
  undone_by_inbox_object_id : option Z;
  liked_via_outbox_object_ap_id : option string;
  announced_via_outbox_object_ap_id : option string;
  is_bookmarked : bool;
  is_deleted : bool;
  replies_count : Z
}.

Definition set_created_at (t : datetime) (r : InboxObject) : InboxObject :=
  mk (id r) t (actor_id r) (ap_type r) (ap_id r) (ap_published_at r)
     (in_reply_to r) (activity_object_ap_id r) (visibility r)
     (conversation r) (has_local_mention r)
     (relates_to_inbox_object_id r) (relates_to_outbox_object_id r)
     (undone_by_inbox_object_id r) (liked_via_outbox_object_ap_id r)
     (announced_via_outbox_object_ap_id r) (is_bookmarked r) (is_deleted r)
     (replies_count r).

Definition set_is_deleted (b : bool) (r : InboxObject) : InboxObject :=
  mk (id r) (created_at r) (actor_id r) (ap_type r) (ap_id r)
     (ap_published_at r) (in_reply_to r) (activity_object_ap_id r)
     (visibility r) (conversation r) (has_local_mention r)
     (relates_to_inbox_object_id r) (relates_to_outbox_object_id r)
     (undone_by_inbox_object_id r) (liked_via_outbox_object_ap_id r)
     (announced_via_outbox_object_ap_id r) (is_bookmarked r) b
     (replies_count r).

Definition set_replies_count (n : Z) (r : InboxObject) : InboxObject :=
  mk (id r) (created_at r) (actor_id r) (ap_type r) (ap_id r)
     (ap_published_at r) (in_reply_to r) (activity_object_ap_id r)
     (visibility r) (conversation r) (has_local_mention r)
     (relates_to_inbox_object_id r) (relates_to_outbox_object_id r)
     (undone_by_inbox_object_id r) (liked_via_outbox_object_ap_id r)
     (announced_via_outbox_object_ap_id r) (is_bookmarked r) (is_deleted r)
     n.
End Inbox.

(** Table [outbox]. *)
Module Outbox.
Record OutboxObject := mk {
  id : Z;
  created_at : datetime;
  public_id : string;
  ap_type : string;
  ap_id : string;
  in_reply_to : option string;
  activity_object_ap_id : option string;
  ap_published_at : datetime;
  visibility : VisibilityEnum;
  conversation : option string;
  likes_count : Z;
  announces_count : Z;
  replies_count : Z;
  is_deleted : bool;
  relates_to_inbox_object_id : option Z;
  relates_to_outbox_object_id : option Z;
  undone_by_outbox_object_id : option Z
}.

Definition set_counters (l a r : Z) (o : OutboxObject) : OutboxObject :=
  mk (id o) (created_at o) (public_id o) (ap_type o) (ap_id o)
     (in_reply_to o) (activity_object_ap_id o) (ap_published_at o)
     (visibility o) (conversation o) l a r (is_deleted o)
     (relates_to_inbox_object_id o) (relates_to_outbox_object_id o)
     (undone_by_outbox_object_id o).

Definition set_is_deleted (b : bool) (o : OutboxObject) : OutboxObject :=
  mk (id o) (created_at o) (public_id o) (ap_type o) (ap_id o)
     (in_reply_to o) (activity_object_ap_id o) (ap_published_at o)
     (visibility o) (conversation o) (likes_count o) (announces_count o)
     (replies_count o) b
     (relates_to_inbox_object_id o) (relates_to_outbox_object_id o)
     (undone_by_outbox_object_id o).
End Outbox.

(** Table [incoming_activity]. *)
Module Incoming.
Record IncomingActivity := mk {
  id : Z;
  created_at : datetime;
  webmention_source : option string;
  sent_by_ap_actor_id : option string;
  ap_id : option string;
  tries : Z;
  next_try : option datetime;
  last_try : option datetime;
  is_processed : bool;
  is_errored : bool;
  error : option string
}.
End Incoming.

(** Table [outgoing_activity]. *)
Module Outgoing.
Record OutgoingActivity := mk {
  id : Z;
  created_at : datetime;
  recipient : string;
  outbox_object_id : option Z;
  inbox_object_id : option Z;
  webmention_target : option string;
  tries : Z;
  next_try : option datetime;
  last_try : option datetime;
  last_status_code : option Z;
  last_response : option string;
  is_sent : bool;
  is_errored : bool;
  error : option string
}.
End Outgoing.

(** Table [poll_answer]. *)
Module Poll.
Record PollAnswer := mk {
  id : Z;
  created_at : datetime;
  outbox_object_id : Z;
  poll_type : string;
  inbox_object_id : Z;
  actor_id : Z;
  name : string
}.
End Poll.


(** [NotificationType] and table [notifications] ([app/models.py]). *)
Inductive NotificationType :=
| NEW_FOLLOWER | PENDING_INCOMING_FOLLOWER | REJECTED_FOLLOWER | UNFOLLOW
| FOLLOW_REQUEST_ACCEPTED | FOLLOW_REQUEST_REJECTED
| MOVE
| LIKE | UNDO_LIKE
| ANNOUNCE | UNDO_ANNOUNCE
| MENTION
| NEW_WEBMENTION | UPDATED_WEBMENTION | DELETED_WEBMENTION
| BLOCKED | UNBLOCKED
| BLOCK | UNBLOCK.

Module Notif.
Record Notification := mk {
  id : Z;
  created_at : datetime;
  notification_type : option NotificationType;
  is_new : bool;
  actor_id : option Z;
  outbox_object_id : option Z;
  inbox_object_id : option Z
}.
End Notif.

(** The database: one list of rows per table. *)
Record DB := mkDB {
  incoming_activity : list Incoming.IncomingActivity;
  outgoing_activity : list Outgoing.OutgoingActivity;
  inbox : list Inbox.InboxObject;
  outbox : list Outbox.OutboxObject;
  poll_answer : list Poll.PollAnswer;
  notifications : list Notif.Notification
}.

Definition with_inbox (t : list Inbox.InboxObject) (db : DB) : DB :=
  mkDB (incoming_activity db) (outgoing_activity db) t (outbox db)
       (poll_answer db) (notifications db).

Definition with_outbox (t : list Outbox.OutboxObject) (db : DB) : DB :=
  mkDB (incoming_activity db) (outgoing_activity db) (inbox db) t
       (poll_answer db) (notifications db).

Definition with_incoming_activity (t : list Incoming.IncomingActivity)
  (db : DB) : DB :=
  mkDB t (outgoing_activity db) (inbox db) (outbox db)
       (poll_answer db) (notifications db).

Definition with_outgoing_activity (t : list Outgoing.OutgoingActivity)
  (db : DB) : DB :=
  mkDB (incoming_activity db) t (inbox db) (outbox db)
       (poll_answer db) (notifications db).

Definition with_notifications (t : list Notif.Notification) (db : DB) : DB :=
  mkDB (incoming_activity db) (outgoing_activity db) (inbox db) (outbox db)
       (poll_answer db) t.

(** An [Integer] primary key is assigned by the database on insert: one more
    than the largest key of the table. *)
Definition fresh_id (ids : list Z) : Z := 1 + fold_right Z.max 0 ids.

(** ** The retention pruner ([app/prune.py]) *)

Section Pruner.

(** [app.config.BASE_URL] and [app.config.INBOX_RETENTION_DAYS]. *)
Variable BASE_URL : string.
Variable INBOX_RETENTION_DAYS : Z.

(** [now() - timedelta(days=INBOX_RETENTION_DAYS)] *)
Definition cutoff (now : datetime) : datetime :=
  now - timedelta_days INBOX_RETENTION_DAYS.

Definition incoming_where (now : datetime) (r : Incoming.IncomingActivity)
  : Sql.tri :=
  Sql.and_
    [ Some (Incoming.created_at r <? cutoff now);
      (* Keep failed activity for debug *)
      Sql.is_ (Incoming.is_errored r) false ].

Definition _prune_old_incoming_activities (now : datetime)
  (t : list Incoming.IncomingActivity) : list Incoming.IncomingActivity :=
  Sql.delete_where (incoming_where now) t.

Definition outgoing_where (now : datetime) (r : Outgoing.OutgoingActivity)
  : Sql.tri :=
  Sql.and_
    [ Some (Outgoing.created_at r <? cutoff now);
      (* Keep failed activity for debug *)
      Sql.is_ (Outgoing.is_errored r) false ].

Definition _prune_old_outgoing_activities (now : datetime)
  (t : list Outgoing.OutgoingActivity) : list Outgoing.OutgoingActivity :=
  Sql.delete_where (outgoing_where now) t.

(** The pattern [f"{BASE_URL}%"]. *)
Definition base_url_pattern : string := BASE_URL ++ "%".

(** The subquery
    [select(func.distinct(OutboxObject.conversation)).where(
       conversation.is_not(None), conversation.not_like(f"{BASE_URL}%"))]. *)
Definition outbox_conversation (ob : list Outbox.OutboxObject) : list string :=
  Sql.distinct
    (flat_map
       (fun o =>
          if Sql.holds
               (Sql.and_
                  [ Sql.is_not_null (Outbox.conversation o);
                    Sql.not_like (Outbox.conversation o) base_url_pattern ])
          then match Outbox.conversation o with
               | Some c => [c]
               | None => []
               end
          else [])
       ob).

(** The single conditions of the inbox delete, in the order of the source. *)
Definition keep_bookmarked (r : Inbox.InboxObject) : Sql.tri :=
  Sql.is_ (Inbox.is_bookmarked r) false.

Definition keep_liked (r : Inbox.InboxObject) : Sql.tri :=
  Sql.is_null (Inbox.liked_via_outbox_object_ap_id r).

Definition keep_announced (r : Inbox.InboxObject) : Sql.tri :=
  Sql.is_null (Inbox.announced_via_outbox_object_ap_id r).

Definition keep_local_mention (r : Inbox.InboxObject) : Sql.tri :=
  Sql.is_ (Inbox.has_local_mention r) false.

Definition keep_local_conversation (ob : list Outbox.OutboxObject)
  (r : Inbox.InboxObject) : Sql.tri :=
  Sql.or_
    [ Sql.not_like (Inbox.conversation r) base_url_pattern;
      Sql.is_null (Inbox.conversation r);
      Sql.not_in (Inbox.conversation r) (outbox_conversation ob) ].

Definition keep_outbox_activity (r : Inbox.InboxObject) : Sql.tri :=
  Sql.or_
    [ Sql.not_like (Inbox.activity_object_ap_id r) base_url_pattern;
      Sql.is_null (Inbox.activity_object_ap_id r) ].

Definition keep_direct_message (r : Inbox.InboxObject) : Sql.tri :=
  Sql.not_
    (Sql.and_
       [ Some (VisibilityEnum_eqb (Inbox.visibility r) DIRECT);
         Sql.in_ (Some (Inbox.ap_type r)) ["Note"] ]).

Definition keep_move (r : Inbox.InboxObject) : Sql.tri :=
  Sql.not_in (Some (Inbox.ap_type r)) ["Move"].

Definition retention_filter (now : datetime) (r : Inbox.InboxObject)
  : Sql.tri :=
  Some (Inbox.ap_published_at r <? cutoff now).

Definition inbox_where (now : datetime) (ob : list Outbox.OutboxObject)
  (r : Inbox.InboxObject) : Sql.tri :=
  Sql.and_
    [ keep_bookmarked r;
      keep_liked r;
      keep_announced r;
      keep_local_mention r;
      keep_local_conversation ob r;
      keep_outbox_activity r;
      keep_direct_message r;
      keep_move r;
      retention_filter now r ].

Definition _prune_old_inbox_objects (now : datetime) (db : DB)
  : list Inbox.InboxObject :=
  Sql.delete_where (inbox_where now (outbox db)) (inbox db).

(** [prune_old_data]: the three deletes in sequence; [now()] is read once by
    each of them. *)
Definition prune_old_data (t1 t2 t3 : datetime) (db : DB) : DB :=
  let db1 :=
    with_incoming_activity
      (_prune_old_incoming_activities t1 (incoming_activity db)) db in
  let db2 :=
    with_outgoing_activity
      (_prune_old_outgoing_activities t2 (outgoing_activity db1)) db1 in
  with_inbox (_prune_old_inbox_objects t3 db2) db2.

End Pruner.

(** [InboxObjectFactory.from_remote_object] ([tests/factories.py]): the
    publication time of a stored row is the document's [published] field when
    it has one, the time of receipt otherwise. *)
Definition factory_ap_published_at (now : datetime)
  (published : option datetime) : datetime :=
  match published with
  | Some p => p
  | None => now
  end.

(** ** Uniqueness constraints of [poll_answer] ([PollAnswer.__table_args__]) *)

(** [UniqueConstraint("outbox_object_id", "name", "actor_id")]: two rows
    clash when they agree on the three columns. *)
Definition uix_outbox_object_id_name_actor_id (a b : Poll.PollAnswer) : bool :=
  (Poll.outbox_object_id a =? Poll.outbox_object_id b)
  && String.eqb (Poll.name a) (Poll.name b)
  && (Poll.actor_id a =? Poll.actor_id b).

(** [Index("outbox_object_id", "actor_id", unique=True,
           sqlite_where=text('poll_type = "oneOf"'))]: a partial index; only
    rows whose [poll_type] is [oneOf] are in it, and two rows of the index
    clash when they agree on the two columns. *)
Definition in_one_of_index (a : Poll.PollAnswer) : bool :=
  String.eqb (Poll.poll_type a) "oneOf".

Definition uix_one_of_outbox_object_id_actor_id (a b : Poll.PollAnswer)
  : bool :=
  in_one_of_index a && in_one_of_index b
  && (Poll.outbox_object_id a =? Poll.outbox_object_id b)
  && (Poll.actor_id a =? Poll.actor_id b).

Definition poll_answer_clash (a b : Poll.PollAnswer) : bool :=
  uix_outbox_object_id_name_actor_id a b
  || uix_one_of_outbox_object_id_actor_id a b.

Definition poll_answer_with_id (i : Z) (a : Poll.PollAnswer)
  : Poll.PollAnswer :=
  Poll.mk i (Poll.created_at a) (Poll.outbox_object_id a) (Poll.poll_type a)
          (Poll.inbox_object_id a) (Poll.actor_id a) (Poll.name a).

(** Insert of a vote: the row gets a fresh primary key; [None] is the
    database's IntegrityError, and the table is then as it was. *)
Definition poll_answer_insert (a : Poll.PollAnswer) (t : list Poll.PollAnswer)
  : option (list Poll.PollAnswer) :=
  if existsb (poll_answer_clash a) t then None
  else Some (t ++ [poll_answer_with_id (fresh_id (map Poll.id t)) a]).

(** ** [OutgoingActivity.anybox_object] *)

Inductive AnyboxObject :=
| FromOutbox (o : Outbox.OutboxObject)
| FromInbox (i : Inbox.InboxObject).

(** The exceptions the model raises. *)
Inductive Exn :=
| ValueError (msg : string)
| IntegrityError (msg : string).

Inductive result (A : Type) :=
| Ok (a : A)
| Raise (e : Exn).
Arguments Ok {A} a.
Arguments Raise {A} e.

(** Python's truth value of an [Optional[int]]: [None] and [0] are false. *)
Definition truthy (x : option Z) : bool :=
  match x with
  | None => false
  | Some n => negb (n =? 0)
  end.

(** The [relationship(..., uselist=False)] attributes: the row the foreign
    key names, [None] when the key is NULL or names no row. *)
Definition outbox_object (db : DB) (r : Outgoing.OutgoingActivity)
  : option Outbox.OutboxObject :=
  match Outgoing.outbox_object_id r with
  | None => None
  | Some i => find (fun o => Outbox.id o =? i) (outbox db)
  end.

Definition inbox_object (db : DB) (r : Outgoing.OutgoingActivity)
  : option Inbox.InboxObject :=
  match Outgoing.inbox_object_id r with
  | None => None
  | Some i => find (fun o => Inbox.id o =? i) (inbox db)
  end.

Definition anybox_object (db : DB) (r : Outgoing.OutgoingActivity)
  : result (option AnyboxObject) :=
  if truthy (Outgoing.outbox_object_id r) then
    Ok (option_map FromOutbox (outbox_object db r))
  else if truthy (Outgoing.inbox_object_id r) then
    Ok (option_map FromInbox (inbox_object db r))
  else Raise (ValueError "Should never happen").

(** A new [outgoing_activity] row with the column defaults of the model
    ([tries=0], [next_try=now], flags false, the nullable columns NULL unless
    given); both links are nullable. *)
Definition new_OutgoingActivity (i : Z) (now : datetime) (recipient : string)
  (outbox_object_id inbox_object_id : option Z)
  (webmention_target : option string) : Outgoing.OutgoingActivity :=
  Outgoing.mk i now recipient outbox_object_id inbox_object_id
              webmention_target 0 (Some now) None None None false false None.

(** ** Unique [ap_id] of [inbox] and [outbox] ([unique=True]) *)

Definition inbox_insert (r : Inbox.InboxObject) (t : list Inbox.InboxObject)
  : result (list Inbox.InboxObject) :=
  if existsb (fun x => String.eqb (Inbox.ap_id x) (Inbox.ap_id r)) t
  then Raise (IntegrityError "UNIQUE constraint failed: inbox.ap_id")
  else Ok (t ++ [r]).

Definition outbox_insert (r : Outbox.OutboxObject)
  (t : list Outbox.OutboxObject) : result (list Outbox.OutboxObject) :=
  if existsb (fun x => String.eqb (Outbox.ap_id x) (Outbox.ap_id r)) t
  then Raise (IntegrityError "UNIQUE constraint failed: outbox.ap_id")
  else Ok (t ++ [r]).

(** ** The outgoing delivery queue

    The table is that of [activitypub/models.py]; the two operations on it,
    of [activitypub/outgoing_activities.py], follow section 4.3 of the
    specification. *)

(** [next_try <= now], UNKNOWN on a NULL [next_try]. *)
Definition next_try_due (now : datetime) (r : Outgoing.OutgoingActivity)
  : Sql.tri :=
  option_map (fun t => t <=? now) (Outgoing.next_try r).

Definition fetch_next_where (now : datetime) (r : Outgoing.OutgoingActivity)
  : Sql.tri :=
  Sql.and_
    [ Sql.is_ (Outgoing.is_sent r) false;
      Sql.is_ (Outgoing.is_errored r) false;
      next_try_due now r ].

(** ORDER BY [next_try] ascending (SQLite puts NULL first). *)
Definition next_try_leb (a b : Outgoing.OutgoingActivity) : bool :=
  match Outgoing.next_try a, Outgoing.next_try b with
  | None, _ => true
  | Some _, None => false
  | Some x, Some y => x <=? y
  end.

Fixpoint insert_by_next_try (r : Outgoing.OutgoingActivity)
  (l : list Outgoing.OutgoingActivity) : list Outgoing.OutgoingActivity :=
  match l with
  | [] => [r]
  | x :: l' =>
      if next_try_leb r x then r :: l else x :: insert_by_next_try r l'
  end.

Definition order_by_next_try (l : list Outgoing.OutgoingActivity)
  : list Outgoing.OutgoingActivity :=
  fold_right insert_by_next_try [] l.

(** Modelled from the spec: [fetch_next_outgoing_activity] of
    [activitypub/outgoing_activities.py], whose code is missing: "selects the oldest row where [is_sent = false],
    [is_errored = false], and [next_try <= now], ordered by [next_try]
    ascending; returns none if no such row exists". *)
Definition fetch_next_outgoing_activity (now : datetime)
  (q : list Outgoing.OutgoingActivity) : option Outgoing.OutgoingActivity :=
  hd_error
    (order_by_next_try (filter (fun r => Sql.holds (fetch_next_where now r)) q)).

(** What one delivery attempt comes back with. *)
Inductive Delivery :=
| HttpResponse (status : Z) (body : string)
| NetworkFailure.

Definition is_2xx (status : Z) : bool := (200 <=? status) && (status <? 300).

Definition delivered (d : Delivery) : bool :=
  match d with
  | HttpResponse s _ => is_2xx s
  | NetworkFailure => false
  end.

Section OutgoingQueue.

(** [_MAX_RETRIES], the delay before the next attempt after [tries] failures,
    and the diagnostic text kept in [error] for a failed attempt. *)
Variable MAX_RETRIES : Z.
Variable backoff : Z -> Z.
Variable describe_error : Delivery -> string.

(** Modelled from the spec: the 2xx branch of the missing
    [process_next_outgoing_activity]. *)
Definition mark_sent (status : Z) (r : Outgoing.OutgoingActivity)
  : Outgoing.OutgoingActivity :=
  Outgoing.mk (Outgoing.id r) (Outgoing.created_at r) (Outgoing.recipient r)
    (Outgoing.outbox_object_id r) (Outgoing.inbox_object_id r)
    (Outgoing.webmention_target r) (Outgoing.tries r) (Outgoing.next_try r)
    (Outgoing.last_try r) (Some status) (Outgoing.last_response r)
    true (Outgoing.is_errored r) None.

(** Modelled from the spec: the failure branch of the missing
    [process_next_outgoing_activity].  Status and response are those of the
    answer when there is one and stay as they were on a network failure. *)
Definition mark_failed (now : datetime) (d : Delivery)
  (r : Outgoing.OutgoingActivity) : Outgoing.OutgoingActivity :=
  let tries' := Outgoing.tries r + 1 in
  let status' :=
    match d with
    | HttpResponse s _ => Some s
    | NetworkFailure => Outgoing.last_status_code r
    end in
  let response' :=
    match d with
    | HttpResponse _ b => Some b
    | NetworkFailure => Outgoing.last_response r
    end in
  let errored := MAX_RETRIES <=? tries' in
  Outgoing.mk (Outgoing.id r) (Outgoing.created_at r) (Outgoing.recipient r)
    (Outgoing.outbox_object_id r) (Outgoing.inbox_object_id r)
    (Outgoing.webmention_target r) tries'
    (if errored then Outgoing.next_try r else Some (now + backoff tries'))
    (Outgoing.last_try r) status' response'
    (Outgoing.is_sent r)
    (if errored then true else Outgoing.is_errored r)
    (Some (describe_error d)).

(** Modelled from the spec: [process_next_outgoing_activity] of
    [activitypub/outgoing_activities.py], whose code is missing: "On HTTP 2xx: mark [is_sent = true], record status code,
    clear error.  On HTTP non-2xx or network failure: increment [tries],
    record status/response/error, and if [tries >= MAX_RETRIES] mark
    [is_errored = true]; otherwise compute [next_try = now + backoff(tries)]
    and leave [is_sent = false] for a later retry."  One call is one
    attempt, whose outcome is [d]. *)
Definition process_next_outgoing_activity (now : datetime) (d : Delivery)
  (r : Outgoing.OutgoingActivity) : Outgoing.OutgoingActivity :=
  match d with
  | HttpResponse s _ => if is_2xx s then mark_sent s r else mark_failed now d r
  | NetworkFailure => mark_failed now d r
  end.

(** Successive attempts on one row, each at its own time. *)
Definition process_all (attempts : list (datetime * Delivery))
  (r : Outgoing.OutgoingActivity) : Outgoing.OutgoingActivity :=
  fold_left (fun r' a => process_next_outgoing_activity (fst a) (snd a) r')
            attempts r.

End OutgoingQueue.

(** ** Lookups by protocol identifier *)

Definition get_inbox_object_by_ap_id (db : DB) (ap_id : string)
  : option Inbox.InboxObject :=
  find (fun r => String.eqb (Inbox.ap_id r) ap_id) (inbox db).

Definition get_outbox_object_by_ap_id (db : DB) (ap_id : string)
  : option Outbox.OutboxObject :=
  find (fun o => String.eqb (Outbox.ap_id o) ap_id) (outbox db).


(** UPDATE of the outbox rows with a given protocol identifier. *)
Definition update_outbox (ap_id : string)
  (f : Outbox.OutboxObject -> Outbox.OutboxObject) (db : DB) : DB :=
  with_outbox
    (map (fun o => if String.eqb (Outbox.ap_id o) ap_id then f o else o)
         (outbox db))
    db.

Definition update_inbox (ap_id : string)
  (f : Inbox.InboxObject -> Inbox.InboxObject) (db : DB) : DB :=
  with_inbox
    (map (fun r => if String.eqb (Inbox.ap_id r) ap_id then f r else r)
         (inbox db))
    db.

Definition add_notification (now : datetime) (ty : NotificationType)
  (actor_id : Z) (outbox_object_id inbox_object_id : option Z) (db : DB)
  : DB :=
  with_notifications
    (notifications db
     ++ [Notif.mk (fresh_id (map Notif.id (notifications db))) now (Some ty)
                  true (Some actor_id) outbox_object_id inbox_object_id])
    db.

(** ** Received activities *)

(** A received JSON-LD document, reduced to the keys the engine reads. *)
Module Raw.
Record Activity := mk {
  id : string;
  type : string;
  actor : string;
  object : option string;
  in_reply_to : option string;
  published : option datetime;
  visibility : VisibilityEnum;
  conversation : option string;
  mentions_local_actor : bool;
  name : option string
}.
End Raw.

(** The row an activity is stored as: fresh key, column defaults, the
    publication time as in [factory_ap_published_at]. *)
Definition new_InboxObject (i : Z) (now : datetime) (sender_actor_id : Z)
  (a : Raw.Activity) (has_local_mention : bool)
  (relates_to_inbox relates_to_outbox : option Z) : Inbox.InboxObject :=
  Inbox.mk i now sender_actor_id (Raw.type a) (Raw.id a)
           (factory_ap_published_at now (Raw.published a))
           (Raw.in_reply_to a) (Raw.object a) (Raw.visibility a)
           (Raw.conversation a) has_local_mention
           relates_to_inbox relates_to_outbox None None None false false 0.

Definition incr_likes (o : Outbox.OutboxObject) : Outbox.OutboxObject :=
  Outbox.set_counters (Outbox.likes_count o + 1) (Outbox.announces_count o)
                      (Outbox.replies_count o) o.

Definition incr_announces (o : Outbox.OutboxObject) : Outbox.OutboxObject :=
  Outbox.set_counters (Outbox.likes_count o) (Outbox.announces_count o + 1)
                      (Outbox.replies_count o) o.

Definition incr_replies (o : Outbox.OutboxObject) : Outbox.OutboxObject :=
  Outbox.set_counters (Outbox.likes_count o) (Outbox.announces_count o)
                      (Outbox.replies_count o + 1) o.

(** ** The outbox engine: Delete

    The engine follows section 4.1 of the specification and the test
    [test_send_delete__reverts_side_effects] of [tests/test_outbox.py]. *)

Definition is_live_outbox_reply (parent : string) (o : Outbox.OutboxObject)
  : bool :=
  match Outbox.in_reply_to o with
  | Some p => String.eqb p parent && negb (Outbox.is_deleted o)
  | None => false
  end.

Definition is_live_inbox_reply (parent : string) (r : Inbox.InboxObject)
  : bool :=
  match Inbox.in_reply_to r with
  | Some p => String.eqb p parent && negb (Inbox.is_deleted r)
  | None => false
  end.

(** The live (not deleted) stored replies to the object [parent]. *)
Definition live_replies (db : DB) (parent : string) : Z :=
  Z.of_nat (List.length (filter (is_live_outbox_reply parent) (outbox db)))
  + Z.of_nat (List.length (filter (is_live_inbox_reply parent) (inbox db))).

(** Modelled from the spec: the counter refresh of the missing Delete
    handler.  The counter of the replied-to object, in whichever box it is,
    is set to the count of the rows. *)
Definition refresh_replies_count (parent : string) (db : DB) : DB :=
  let n := live_replies db parent in
  update_inbox parent (Inbox.set_replies_count n)
    (update_outbox parent
       (fun o =>
          Outbox.set_counters (Outbox.likes_count o) (Outbox.announces_count o)
                              n o)
       db).

(** One [outgoing_activity] row per distinct recipient. *)
Definition queue_deliveries (now : datetime) (outbox_object_id : Z)
  (recipients : list string) (db : DB) : DB :=
  fold_left
    (fun db' recipient =>
       with_outgoing_activity
         (outgoing_activity db'
          ++ [new_OutgoingActivity
                (fresh_id (map Outgoing.id (outgoing_activity db'))) now
                recipient (Some outbox_object_id) None None])
         db')
    (Sql.distinct recipients) db.

(** Modelled from the spec: the outbox engine's Delete, whose code is
    missing: "tombstones the OutboxObject ([is_deleted = true]) and, if
    it was a reply, decrements the parent's [replies_count]; queues delivery
    to the original recipients", where a counter "must always equal the live
    (non-undone, non-deleted) count of relating rows" and is "recomputed"
    when a relating row's deleted state changes.  The test of the repository
    starts from a counter of 5 with two stored replies and expects 1 after
    one of them is deleted: the counter is refreshed from the rows.
    [public_id] and [delete_ap_id] are the identifiers allotted to the Delete
    activity. *)
Definition send_delete (now : datetime) (ap_object_id : string)
  (public_id delete_ap_id : string) (recipients : list string) (db : DB)
  : result DB :=
  match
    find (fun o => String.eqb (Outbox.ap_id o) ap_object_id
                   && negb (Outbox.is_deleted o))
         (outbox db)
  with
  | None => Raise (ValueError "unknown or already deleted object")
  | Some o =>
      let db1 := update_outbox ap_object_id (Outbox.set_is_deleted true) db in
      let db2 :=
        match Outbox.in_reply_to o with
        | Some parent => refresh_replies_count parent db1
        | None => db1
        end in
      let i := fresh_id (map Outbox.id (outbox db2)) in
      let delete_activity :=
        Outbox.mk i now public_id "Delete" delete_ap_id None
                  (Some ap_object_id) now (Outbox.visibility o)
                  (Outbox.conversation o) 0 0 0 false None None None in
      match outbox_insert delete_activity (outbox db2) with
      | Raise e => Raise e
      | Ok t => Ok (queue_deliveries now i recipients (with_outbox t db2))
      end
  end.

(** The tables of votes the database can hold: the empty one and those an
    accepted insert makes. *)
Inductive poll_answer_table : list Poll.PollAnswer -> Prop :=
| poll_answer_empty : poll_answer_table []
| poll_answer_inserted (a : Poll.PollAnswer) (t t' : list Poll.PollAnswer) :
    poll_answer_table t ->
    poll_answer_insert a t = Some t' ->
    poll_answer_table t'.

(** The votes of one actor on one poll, and those among them for one answer. *)
Definition votes_of (poll actor : Z) (t : list Poll.PollAnswer)
  : list Poll.PollAnswer :=
  filter (fun b => (Poll.outbox_object_id b =? poll)
                   && (Poll.actor_id b =? actor)) t.

Definition votes_for (poll : Z) (answer : string) (actor : Z)
  (t : list Poll.PollAnswer) : list Poll.PollAnswer :=
  filter (fun b => String.eqb (Poll.name b) answer) (votes_of poll actor t).

(** A row is due at [now]: not sent, not errored, [next_try] set and not
    after [now]. *)
Definition due (now : datetime) (r : Outgoing.OutgoingActivity) : Prop :=
  Outgoing.is_sent r = false
  /\ Outgoing.is_errored r = false
  /\ exists t, Outgoing.next_try r = Some t /\ t <= now.

(** * Scenarios

    Concrete rows and databases on which the operations are evaluated. *)

Module Scenario.

Definition BASE_URL : string := "https://blog.example".

(** A remote note received into the inbox, with the column defaults. *)
Definition inbox_note (i : Z) (ap_id : string) (published : datetime)
  (in_reply_to conversation : option string) (replies_count : Z)
  : Inbox.InboxObject :=
  Inbox.mk i published 1 "Note" ap_id published in_reply_to None PUBLIC
           conversation false None None None None None false false
           replies_count.

(** A local note of the outbox, with the column defaults. *)
Definition outbox_note (i : Z) (public_id : string) (published : datetime)
  (in_reply_to conversation : option string) : Outbox.OutboxObject :=
  Outbox.mk i published public_id "Note" (BASE_URL ++ "/o/" ++ public_id)
            in_reply_to None published PUBLIC conversation 0 0 0 false
            None None None.

(** Two conversations with local content.  The first was started by a remote
    note, to which the local actor replied; the second was started by a local
    note, to which a remote actor replied. *)
Definition remote_thread : string := "https://remote.example/ctx/1".
Definition local_thread : string := "https://blog.example/ctx/9".

Definition remote_root : Inbox.InboxObject :=
  inbox_note 1 "https://remote.example/note/1" 0 None (Some remote_thread) 1.

Definition remote_reply : Inbox.InboxObject :=
  inbox_note 2 "https://remote.example/note/2" 0
             (Some "https://blog.example/o/b2") (Some local_thread) 0.

Definition local_reply : Outbox.OutboxObject :=
  outbox_note 1 "a1" 0 (Some "https://remote.example/note/1")
              (Some remote_thread).

Definition local_root : Outbox.OutboxObject :=
  outbox_note 2 "b2" 0 None (Some local_thread).

Definition conversations_db : DB :=
  mkDB [] [] [remote_root; remote_reply] [local_reply; local_root] [] [].

(** A queue row created with neither link: the model's columns are nullable
    and nothing else refuses it. *)
Definition unlinked_activity : Outgoing.OutgoingActivity :=
  new_OutgoingActivity 1 0 "https://remote.example/inbox" None None None.

(** A delivery queued for an outbox object, as the tests set it up, three
    failed attempts on it, and the retry policy they run under. *)
Definition queued_activity : Outgoing.OutgoingActivity :=
  new_OutgoingActivity 1 0 "https://example.com/inbox" (Some 1) None None.

Definition three_failures : list (datetime * Delivery) :=
  [ (10, HttpResponse 500 "oops");
    (20, NetworkFailure);
    (30, HttpResponse 500 "oops") ].

Definition MAX_RETRIES : Z := 3.
Definition backoff (tries : Z) : Z := 2 ^ tries * 1000000.
Definition describe_error (d : Delivery) : string :=
  match d with
  | HttpResponse _ body => body
  | NetworkFailure => "connection failed"
  end.

(** A remote actor likes the local note [n1]: the store before, the activity,
    and the row and store after the first ingest. *)
Definition liked_note : Outbox.OutboxObject := outbox_note 1 "n1" 0 None None.

Definition like_activity : Raw.Activity :=
  Raw.mk "https://remote.example/like/1" "Like" "https://remote.example"
         (Some "https://blog.example/o/n1") None None PUBLIC None false None.


Definition like_row : Inbox.InboxObject :=
  new_InboxObject 1 50 7 like_activity false None (Some 1).

Definition after_like : DB :=
  mkDB [] [] [like_row] [Outbox.set_counters 1 0 0 liked_note] []
       [Notif.mk 1 50 (Some LIKE) true (Some 7) (Some 1) (Some 1)].

(** Every activity type but Delete asks for a verified signature. *)
Definition requires_authentication (ap_type : string) : bool :=
  negb (String.eqb ap_type "Delete").

(** [test_send_delete__reverts_side_effects]: a remote note whose counter is
    set to 5, "a bogus counter", and two local replies to it; the second reply
    is then deleted and the Delete goes to the one follower. *)
Definition replied_note : Inbox.InboxObject :=
  inbox_note 1 "https://example.com/note/p" 0 None
             (Some "https://example.com/ctx/p") 5.

Definition reply_1 : Outbox.OutboxObject :=
  outbox_note 1 "r1" 10 (Some "https://example.com/note/p")
              (Some "https://example.com/ctx/p").

Definition reply_2 : Outbox.OutboxObject :=
  outbox_note 2 "r2" 20 (Some "https://example.com/note/p")
              (Some "https://example.com/ctx/p").

Definition before_delete : DB :=
  mkDB [] [] [replied_note] [reply_1; reply_2] [] [].

Definition delete_reply_2 : result DB :=
  send_delete 30 "https://blog.example/o/r2" "d1" "https://blog.example/o/d1"
              ["https://example.com/inbox"] before_delete.

(** The store the test expects after the delete: the counter of the replied
    note at 1, the second reply tombstoned, the Delete activity in the outbox
    and one delivery of it queued to the follower's inbox. *)
Definition after_delete : DB :=
  mkDB [] [new_OutgoingActivity 1 30 "https://example.com/inbox" (Some 3)
                                None None]
       [Inbox.set_replies_count 1 replied_note]
       [reply_1;
        Outbox.set_is_deleted true reply_2;
        Outbox.mk 3 30 "d1" "Delete" "https://blog.example/o/d1" None
                  (Some "https://blog.example/o/r2") 30 PUBLIC
                  (Some "https://example.com/ctx/p") 0 0 0 false
                  None None None]
       [] [].

End Scenario.

(** * Further parts of the sources *)

(** ** [relates_to_anybox_object] of [InboxObject] and [OutboxObject] *)

(** The row a nullable foreign key names, [None] when the key is NULL or
    names no row. *)
Definition inbox_by_key (db : DB) (k : option Z) : option Inbox.InboxObject :=
  match k with
  | None => None
  | Some i => find (fun o => Inbox.id o =? i) (inbox db)
  end.

Definition outbox_by_key (db : DB) (k : option Z)
  : option Outbox.OutboxObject :=
  match k with
  | None => None
  | Some i => find (fun o => Outbox.id o =? i) (outbox db)
  end.

(** [InboxObject.relates_to_anybox_object] *)
Definition inbox_relates_to_anybox_object (db : DB) (r : Inbox.InboxObject)
  : option AnyboxObject :=
  if truthy (Inbox.relates_to_inbox_object_id r) then
    option_map FromInbox (inbox_by_key db (Inbox.relates_to_inbox_object_id r))
  else if truthy (Inbox.relates_to_outbox_object_id r) then
    option_map FromOutbox
               (outbox_by_key db (Inbox.relates_to_outbox_object_id r))
  else None.

(** [OutboxObject.relates_to_anybox_object] *)
Definition outbox_relates_to_anybox_object (db : DB) (o : Outbox.OutboxObject)
  : option AnyboxObject :=
  if truthy (Outbox.relates_to_inbox_object_id o) then
    option_map FromInbox
               (inbox_by_key db (Outbox.relates_to_inbox_object_id o))
  else if truthy (Outbox.relates_to_outbox_object_id o) then
    option_map FromOutbox
               (outbox_by_key db (Outbox.relates_to_outbox_object_id o))
  else None.

(** ** Tables with unique constraints *)

(** Insert into a table whose unique constraints are the predicate [clash]:
    the row gets a fresh primary key; [None] is the database's
    IntegrityError. *)
Section TableInsert.

Variable R : Type.
Variable clash : R -> R -> bool.
Variable set_id : Z -> R -> R.
Variable get_id : R -> Z.

Definition table_insert (r : R) (t : list R) : option (list R) :=
  if existsb (clash r) t then None
  else Some (t ++ [set_id (fresh_id (map get_id t)) r]).

(** The tables the database can hold: the empty one and those an accepted
    insert makes. *)
Inductive table : list R -> Prop :=
| table_empty : table []
| table_inserted (r : R) (t t' : list R) :
    table t -> table_insert r t = Some t' -> table t'.

End TableInsert.

(** Table [follower]: [actor_id] and [ap_actor_id] are each [unique=True]. *)
Module Followers.
Record Follower := mk {
  id : Z;
  created_at : datetime;
  actor_id : Z;
  inbox_object_id : Z;
  ap_actor_id : string
}.

Definition set_id (i : Z) (r : Follower) : Follower :=
  mk i (created_at r) (actor_id r) (inbox_object_id r) (ap_actor_id r).

Definition clash (a b : Follower) : bool :=
  (actor_id a =? actor_id b) || String.eqb (ap_actor_id a) (ap_actor_id b).

Definition insert := table_insert Follower clash set_id id.
End Followers.

(** Table [following]: [actor_id] and [ap_actor_id] are each [unique=True]. *)
Module Followings.
Record Following := mk {
  id : Z;
  created_at : datetime;
  actor_id : Z;
  outbox_object_id : Z;
  ap_actor_id : string
}.

Definition set_id (i : Z) (r : Following) : Following :=
  mk i (created_at r) (actor_id r) (outbox_object_id r) (ap_actor_id r).

Definition clash (a b : Following) : bool :=
  (actor_id a =? actor_id b) || String.eqb (ap_actor_id a) (ap_actor_id b).

Definition insert := table_insert Following clash set_id id.
End Followings.

(** Table [tagged_outbox_object]:
    [UniqueConstraint("outbox_object_id", "tag")]. *)
Module Tagged.
Record TaggedOutboxObject := mk {
  id : Z;
  outbox_object_id : Z;
  tag : string
}.

Definition set_id (i : Z) (r : TaggedOutboxObject) : TaggedOutboxObject :=
  mk i (outbox_object_id r) (tag r).

Definition clash (a b : TaggedOutboxObject) : bool :=
  (outbox_object_id a =? outbox_object_id b) && String.eqb (tag a) (tag b).

Definition insert := table_insert TaggedOutboxObject clash set_id id.
End Tagged.

(** [WebmentionType] and table [webmention] ([app/models.py]):
    [UniqueConstraint("source", "target")], and [source] is [unique=True] by
    itself. *)
Inductive WebmentionType := WM_UNKNOWN | WM_LIKE | WM_REPLY | WM_REPOST.

Module Webmentions.
Record Webmention := mk {
  id : Z;
  created_at : datetime;
  is_deleted : bool;
  source : string;
  target : string;
  outbox_object_id : Z;
  webmention_type : option WebmentionType
}.

Definition set_id (i : Z) (r : Webmention) : Webmention :=
  mk i (created_at r) (is_deleted r) (source r) (target r)
     (outbox_object_id r) (webmention_type r).

Definition uix_source_target (a b : Webmention) : bool :=
  String.eqb (source a) (source b) && String.eqb (target a) (target b).

Definition unique_source (a b : Webmention) : bool :=
  String.eqb (source a) (source b).

Definition clash (a b : Webmention) : bool :=
  uix_source_target a b || unique_source a b.

Definition insert := table_insert Webmention clash set_id id.
End Webmentions.

(** ** [OutboxObject.url], [Upload.is_image], [OutboxObject.attachments] *)

(** Python's truth value of a [str] and of an [Optional[str]]: the empty
    string and [None] are false. *)
Definition str_truthy (s : string) : bool := negb (String.eqb s "").

Definition opt_str_truthy (o : option string) : bool :=
  match o with
  | Some s => str_truthy s
  | None => false
  end.

(** [x or d] on an [Optional[str]]. *)
Definition str_or (o : option string) (d : string) : string :=
  match o with
  | Some s => if str_truthy s then s else d
  | None => d
  end.

(** [x or d] on an [Optional[list]]. *)
Definition list_or {A} (o : option (list A)) (d : list A) : list A :=
  match o with
  | Some (x :: l) => x :: l
  | _ => d
  end.

(** [OutboxObject.url]; [slug] is the column of that name and [super_url] is
    what the [url] of the base class gives. *)
Definition OutboxObject_url (BASE_URL : string) (super_url : option string)
  (slug : option string) (o : Outbox.OutboxObject) : option string :=
  if String.eqb (Outbox.ap_type o) "Article"
     && opt_str_truthy slug
     && str_truthy (Outbox.public_id o)
  then Some (BASE_URL ++ "/articles/" ++ substring 0 7 (Outbox.public_id o)
             ++ "/" ++ str_or slug "")%string
  else super_url.

(** Table [upload]. *)
Module Uploads.
Record Upload := mk {
  id : Z;
  created_at : datetime;
  content_type : string;
  content_hash : string;
  has_thumbnail : bool;
  blurhash : option string;
  width : option Z;
  height : option Z
}.

(** [content_type.startswith("image")] *)
Definition is_image (u : Upload) : bool := prefix "image" (content_type u).
End Uploads.

(** Table [outbox_object_attachment]; [upload] is the row its [upload_id]
    names. *)
Module Attachments.
Record OutboxObjectAttachment := mk {
  id : Z;
  created_at : datetime;
  filename : string;
  alt : option string;
  outbox_object_id : Z;
  upload_id : Z;
  upload : Uploads.Upload
}.

(** The document handed to [Attachment.parse_obj]. *)
Record Attachment := mkAttachment {
  type : string;
  mediaType : string;
  name : string;
  url : string;
  width : option Z;
  height : option Z;
  proxiedUrl : string;
  resizedUrl : option string
}.
End Attachments.

Definition attachment_url (BASE_URL : string)
  (a : Attachments.OutboxObjectAttachment) : string :=
  (BASE_URL ++ "/attachments/"
   ++ Uploads.content_hash (Attachments.upload a) ++ "/"
   ++ Attachments.filename a)%string.

Definition build_attachment (BASE_URL : string)
  (a : Attachments.OutboxObjectAttachment) : Attachments.Attachment :=
  let url := attachment_url BASE_URL a in
  Attachments.mkAttachment
    "Document"
    (Uploads.content_type (Attachments.upload a))
    (str_or (Attachments.alt a) (Attachments.filename a))
    url
    (Uploads.width (Attachments.upload a))
    (Uploads.height (Attachments.upload a))
    url
    (if Uploads.has_thumbnail (Attachments.upload a)
     then Some (BASE_URL
                ++ ("/attachments/thumbnails/"
                    ++ Uploads.content_hash (Attachments.upload a)
                    ++ "/" ++ Attachments.filename a))%string
     else None).

(** [OutboxObject.attachments]: one document per row of the object's
    [outbox_object_attachments], in their order. *)
Definition outbox_object_attachments
  (table : list Attachments.OutboxObjectAttachment) (o : Outbox.OutboxObject)
  : list Attachments.OutboxObjectAttachment :=
  filter (fun a => Attachments.outbox_object_id a =? Outbox.id o) table.

Definition attachments (BASE_URL : string)
  (table : list Attachments.OutboxObjectAttachment) (o : Outbox.OutboxObject)
  : list Attachments.Attachment :=
  map (build_attachment BASE_URL) (outbox_object_attachments table o).

(** ** The values of the enumerations of [app/models.py] *)

Definition WebmentionType_value (t : WebmentionType) : string :=
  match t with
  | WM_UNKNOWN => "unknown"
  | WM_LIKE => "like"
  | WM_REPLY => "reply"
  | WM_REPOST => "repost"
  end.

Definition WebmentionType_members : list WebmentionType :=
  [WM_UNKNOWN; WM_LIKE; WM_REPLY; WM_REPOST].

(** [WebmentionType(value)]: the member with that value, [None] standing for
    the ValueError of an unknown value. *)
Definition WebmentionType_of_value (s : string) : option WebmentionType :=
  find (fun t => String.eqb (WebmentionType_value t) s)
       WebmentionType_members.

Definition NotificationType_value (t : NotificationType) : string :=
  match t with
  | NEW_FOLLOWER => "new_follower"
  | PENDING_INCOMING_FOLLOWER => "pending_incoming_follower"
  | REJECTED_FOLLOWER => "rejected_follower"
  | UNFOLLOW => "unfollow"
  | FOLLOW_REQUEST_ACCEPTED => "follow_request_accepted"
  | FOLLOW_REQUEST_REJECTED => "follow_request_rejected"
  | MOVE => "move"
  | LIKE => "like"
  | UNDO_LIKE => "undo_like"
  | ANNOUNCE => "announce"
  | UNDO_ANNOUNCE => "undo_announce"
  | MENTION => "mention"
  | NEW_WEBMENTION => "new_webmention"
  | UPDATED_WEBMENTION => "updated_webmention"
  | DELETED_WEBMENTION => "deleted_webmention"
  | BLOCKED => "blocked"
  | UNBLOCKED => "unblocked"
  | BLOCK => "block"
  | UNBLOCK => "unblock"
  end.

Definition NotificationType_members : list NotificationType :=
  [ NEW_FOLLOWER; PENDING_INCOMING_FOLLOWER; REJECTED_FOLLOWER; UNFOLLOW;
    FOLLOW_REQUEST_ACCEPTED; FOLLOW_REQUEST_REJECTED; MOVE; LIKE; UNDO_LIKE;
    ANNOUNCE; UNDO_ANNOUNCE; MENTION; NEW_WEBMENTION; UPDATED_WEBMENTION;
    DELETED_WEBMENTION; BLOCKED; UNBLOCKED; BLOCK; UNBLOCK ].

Definition NotificationType_of_value (s : string) : option NotificationType :=
  find (fun t => String.eqb (NotificationType_value t) s)
       NotificationType_members.

(** ** The activity builders of [tests/factories.py] *)

(** JSON values; a [RawObject] is a dict, kept as its items in order. *)
#[local] Set Warnings "-register-all".
Inductive json :=
| JNull
| JBool (b : bool)
| JNum (n : Z)
| JStr (s : string)
| JList (l : list json)
| JDict (items : list (string * json)).

Definition RawObject := list (string * json).

(** [d.get(key)] *)
Fixpoint dict_get (key : string) (d : RawObject) : option json :=
  match d with
  | [] => None
  | (k, v) :: d' => if String.eqb k key then Some v else dict_get key d'
  end.

(** What a builder raises. *)
Inductive PyError :=
| KeyError (key : string)
| TypeError (msg : string).

Inductive outcome (A : Type) :=
| Return (a : A)
| Throw (e : PyError).
Arguments Return {A} a.
Arguments Throw {A} e.

Definition bind {A B} (m : outcome A) (k : A -> outcome B) : outcome B :=
  match m with
  | Return a => k a
  | Throw e => Throw e
  end.

Notation "x <- m ;; k" := (bind m (fun x => k))
  (at level 61, m at next level, right associativity).

(** [d[key]] *)
Definition dict_item (key : string) (d : RawObject) : outcome json :=
  match dict_get key d with
  | Some v => Return v
  | None => Throw (KeyError key)
  end.

(** [d.get(key, default)] *)
Definition dict_get_default (key : string) (default : json) (d : RawObject)
  : json :=
  match dict_get key d with
  | Some v => v
  | None => default
  end.

(** [v + suffix] for a [str] [suffix]: defined on strings only. *)
Definition add_str (v : json) (suffix : string) : outcome json :=
  match v with
  | JStr s => Return (JStr (s ++ suffix)%string)
  | _ => Throw (TypeError "unsupported operand type(s) for +")
  end.

Definition json_of_option (o : option string) : json :=
  match o with
  | Some s => JStr s
  | None => JNull
  end.

Section Builders.

(** [ap.AS_CTX], [ap.AS_EXTENDED_CTX], [ap.AS_PUBLIC] and
    [ap.remove_context]. *)
Variable AS_CTX : json.
Variable AS_EXTENDED_CTX : json.
Variable AS_PUBLIC : string.
Variable remove_context : RawObject -> RawObject.

(** The actors enter by their [ap_id]; [uuid] is the [uuid4().hex] the call
    would draw. *)
Definition build_follow_activity (from_remote_actor for_remote_actor : string)
  (outbox_public_id : option string) (uuid : string) : RawObject :=
  [ ("@context", AS_CTX);
    ("type", JStr "Follow");
    ("id", JStr (from_remote_actor ++ "/follow/"
                 ++ str_or outbox_public_id uuid)%string);
    ("actor", JStr from_remote_actor);
    ("object", JStr for_remote_actor) ].

Definition build_delete_activity (from_remote_actor : string)
  (deleted_object_ap_id : string) (outbox_public_id : option string)
  (uuid : string) : RawObject :=
  [ ("@context", AS_CTX);
    ("type", JStr "Delete");
    ("id", JStr (from_remote_actor ++ "/follow/"
                 ++ str_or outbox_public_id uuid)%string);
    ("actor", JStr from_remote_actor);
    ("object", JStr deleted_object_ap_id) ].

Definition build_accept_activity (from_remote_actor : string)
  (for_remote_object : string) (outbox_public_id : option string)
  (uuid : string) : RawObject :=
  [ ("@context", AS_CTX);
    ("type", JStr "Accept");
    ("id", JStr (from_remote_actor ++ "/accept/"
                 ++ str_or outbox_public_id uuid)%string);
    ("actor", JStr from_remote_actor);
    ("object", JStr for_remote_object) ].

Definition build_block_activity (from_remote_actor for_remote_actor : string)
  (outbox_public_id : option string) (uuid : string) : RawObject :=
  [ ("@context", AS_CTX);
    ("type", JStr "Block");
    ("id", JStr (from_remote_actor ++ "/block/"
                 ++ str_or outbox_public_id uuid)%string);
    ("actor", JStr from_remote_actor);
    ("object", JStr for_remote_actor) ].

Definition build_move_activity (from_remote_actor for_remote_object : string)
  (outbox_public_id : option string) (uuid : string) : RawObject :=
  [ ("@context", AS_CTX);
    ("type", JStr "Move");
    ("id", JStr (from_remote_actor ++ "/move/"
                 ++ str_or outbox_public_id uuid)%string);
    ("actor", JStr from_remote_actor);
    ("object", JStr from_remote_actor);
    ("target", JStr for_remote_object) ].

(** [published] is the formatted clock reading; [uuid_ctx] and [uuid_id] are
    the two [uuid4().hex] draws, in the order of the source. *)
Definition build_note_object (from_remote_actor : string)
  (outbox_public_id : option string) (content : string)
  (to cc : option (list string)) (tags : option (list json))
  (in_reply_to : option string) (published uuid_ctx uuid_id : string)
  : RawObject :=
  let context := (from_remote_actor ++ "/ctx/" ++ uuid_ctx)%string in
  let note_id := str_or outbox_public_id uuid_id in
  [ ("@context", AS_CTX);
    ("type", JStr "Note");
    ("id", JStr (from_remote_actor ++ "/note/" ++ note_id)%string);
    ("attributedTo", JStr from_remote_actor);
    ("content", JStr content);
    ("to", JList (map JStr (list_or to [AS_PUBLIC])));
    ("cc", JList (map JStr (list_or cc [])));
    ("published", JStr published);
    ("context", JStr context);
    ("conversation", JStr context);
    ("url", JStr (from_remote_actor ++ "/note/" ++ note_id)%string);
    ("tag", JList (list_or tags []));
    ("summary", JNull);
    ("sensitive", JBool false);
    ("inReplyTo", json_of_option in_reply_to) ].

(** The items of the dict display are evaluated in their order, so the first
    missing key is the one the KeyError names. *)
Definition build_create_activity (obj : RawObject) : outcome RawObject :=
  actor <- dict_item "attributedTo" obj ;;
  let to := dict_get_default "to" (JList []) obj in
  let cc := dict_get_default "cc" (JList []) obj in
  id0 <- dict_item "id" obj ;;
  id <- add_str id0 "/activity" ;;
  let object := JDict (remove_context obj) in
  published <- dict_item "published" obj ;;
  Return [ ("@context", AS_EXTENDED_CTX);
           ("actor", actor);
           ("to", to);
           ("cc", cc);
           ("id", id);
           ("object", object);
           ("published", published);
           ("type", JStr "Create") ].

End Builders.

(** ** The inbox engine

    The engine follows section 4.2 of the specification, on the tables of
    [activitypub/models.py]. *)

(** Modelled from the spec: the state of a Follower or Following row
    ("create pending Follower row", "updates the matching Following row's
    state"), for which the tables of the source have no column. *)
Inductive FollowState := FOLLOW_PENDING | FOLLOW_ACCEPTED | FOLLOW_REJECTED.

(** Modelled from the spec: the poll attributes of a Question of the outbox
    ("poll type, poll items with vote counts"), which the source keeps inside
    the JSON document of the object; [question_id] is the key of the object
    in [outbox]. *)
Record Question := mkQuestion {
  question_id : Z;
  question_poll_type : string;
  question_items : list (string * Z)
}.

(** What the engine works on: the database, the follower and following rows
    with their state, the keys of the inbox rows that are transient
    tombstones ([is_transient]), and the polls. *)
Record Store := mkStore {
  store_db : DB;
  follower : list (Followers.Follower * FollowState);
  following : list (Followings.Following * FollowState);
  transient : list Z;
  questions : list Question
}.

Definition on_db (f : DB -> DB) (st : Store) : Store :=
  mkStore (f (store_db st)) (follower st) (following st) (transient st)
          (questions st).

Definition with_follower (t : list (Followers.Follower * FollowState))
  (st : Store) : Store :=
  mkStore (store_db st) t (following st) (transient st) (questions st).

Definition with_following (t : list (Followings.Following * FollowState))
  (st : Store) : Store :=
  mkStore (store_db st) (follower st) t (transient st) (questions st).

Definition with_transient (t : list Z) (st : Store) : Store :=
  mkStore (store_db st) (follower st) (following st) t (questions st).

Definition with_questions (t : list Question) (st : Store) : Store :=
  mkStore (store_db st) (follower st) (following st) (transient st) t.

Definition with_poll_answer (t : list Poll.PollAnswer) (db : DB) : DB :=
  mkDB (incoming_activity db) (outgoing_activity db) (inbox db) (outbox db)
       t (notifications db).


(** Inserts under the unique constraints of [follower] and [following]. *)
Definition follower_insert :=
  table_insert (Followers.Follower * FollowState)
               (fun a b => Followers.clash (fst a) (fst b))
               (fun i r => (Followers.set_id i (fst r), snd r))
               (fun r => Followers.id (fst r)).

Definition following_insert :=
  table_insert (Followings.Following * FollowState)
               (fun a b => Followings.clash (fst a) (fst b))
               (fun i r => (Followings.set_id i (fst r), snd r))
               (fun r => Followings.id (fst r)).

(** What the dispatch on one activity gives: the row to store and the store
    with the side effects applied, or a rejection that leaves the store as it
    was. *)
Inductive Effect :=
| Apply (row : Inbox.InboxObject) (st : Store)
| Refuse (reason : string).

Inductive Ingested :=
| Stored (row : Inbox.InboxObject) (st : Store)
| Rejected (reason : string).

(** Modelled from the spec: the Like and Announce handlers of the missing
    inbox engine: "resolves target (must be a local OutboxObject or a
    previously seen InboxObject), sets [relates_to_*], increments the target's
    counter, creates a Notification".  The counters are columns of the outbox
    only, so a target in the inbox has none to increment. *)
Definition handle_react (now : datetime) (a : Raw.Activity) (i sender : Z)
  (bump : Outbox.OutboxObject -> Outbox.OutboxObject) (ty : NotificationType)
  (st : Store) : Effect :=
  match Raw.object a with
  | None => Refuse "unknown target"
  | Some target =>
      match get_outbox_object_by_ap_id (store_db st) target with
      | Some o =>
          Apply (new_InboxObject i now sender a false None
                                 (Some (Outbox.id o)))
                (on_db (fun db =>
                          add_notification now ty sender (Some (Outbox.id o))
                            (Some i) (update_outbox target bump db))
                       st)
      | None =>
          match get_inbox_object_by_ap_id (store_db st) target with
          | Some r =>
              Apply (new_InboxObject i now sender a false
                                     (Some (Inbox.id r)) None)
                    (on_db (add_notification now ty sender None (Some i)) st)
          | None => Refuse "unknown target"
          end
      end
  end.

(** A vote is live while the note that carries it is not deleted. *)
Definition vote_is_live (db : DB) (v : Poll.PollAnswer) : bool :=
  negb (existsb (fun r => (Inbox.id r =? Poll.inbox_object_id v)
                          && Inbox.is_deleted r)
                (inbox db)).

Definition live_votes (db : DB) (poll : Z) (answer : string) : Z :=
  Z.of_nat
    (List.length
       (filter (fun v => (Poll.outbox_object_id v =? poll)
                         && String.eqb (Poll.name v) answer
                         && vote_is_live db v)
               (poll_answer db))).

(** Modelled from the spec: "the poll's aggregate vote counts are recomputed
    from live PollAnswer rows, never incremented in place". *)
Definition recount (poll : Z) (st : Store) : Store :=
  with_questions
    (map (fun q =>
            if question_id q =? poll then
              mkQuestion (question_id q) (question_poll_type q)
                (map (fun item =>
                        (fst item, live_votes (store_db st) poll (fst item)))
                     (question_items q))
            else q)
         (questions st))
    st.

(** Modelled from the spec: the vote handler of the missing inbox engine:
    "recorded as a PollAnswer row keyed by (poll outbox object, actor),
    respecting the oneOf/anyOf uniqueness rule"; a vote the constraints
    refuse is rejected as a whole. *)
Definition handle_vote (now : datetime) (row : Inbox.InboxObject)
  (sender : Z) (q : Question) (answer : string) (st : Store) : Effect :=
  match
    poll_answer_insert
      (Poll.mk 0 now (question_id q) (question_poll_type q) (Inbox.id row)
               sender answer)
      (poll_answer (store_db st))
  with
  | None => Refuse "vote already recorded"
  | Some t => Apply row (recount (question_id q) (on_db (with_poll_answer t) st))
  end.

(** The poll of an outbox object, when it is a Question. *)
Definition question_of (st : Store) (o : Outbox.OutboxObject)
  : option Question :=
  if String.eqb (Outbox.ap_type o) "Question" then
    find (fun q => question_id q =? Outbox.id o) (questions st)
  else None.

(** Modelled from the spec: the Create handler of the missing inbox engine:
    "stores the object; if [inReplyTo] resolves to a local OutboxObject,
    increments its [replies_count]; flags [has_local_mention] when the local
    actor is addressed", a "Note reply to a Question with [name] set" being a
    vote. *)
Definition handle_create (now : datetime) (a : Raw.Activity) (i sender : Z)
  (st : Store) : Effect :=
  let row :=
    new_InboxObject i now sender a (Raw.mentions_local_actor a) None None in
  match Raw.in_reply_to a with
  | None => Apply row st
  | Some parent =>
      match get_outbox_object_by_ap_id (store_db st) parent with
      | None => Apply row st
      | Some o =>
          match Raw.name a, question_of st o with
          | Some answer, Some q => handle_vote now row sender q answer st
          | _, _ => Apply row (on_db (update_outbox parent incr_replies) st)
          end
      end
  end.

(** The row that stands for a deleted object the inbox never held. *)
Definition tombstone (i : Z) (now : datetime) (sender : Z)
  (a : Raw.Activity) (target : string) : Inbox.InboxObject :=
  Inbox.mk i now sender "Tombstone" target now None None (Raw.visibility a)
           None false None None None None None false true 0.

(** Modelled from the spec: the Delete handler of the missing inbox engine:
    "soft-deletes the named object if already known; if the object was never
    fetched, stores a transient tombstone to prevent re-fetch". *)
Definition handle_delete (now : datetime) (a : Raw.Activity) (i sender : Z)
  (st : Store) : Effect :=
  let row := new_InboxObject i now sender a false None None in
  match Raw.object a with
  | None => Apply row st
  | Some target =>
      match get_inbox_object_by_ap_id (store_db st) target with
      | Some _ =>
          Apply row
                (on_db (update_inbox target (Inbox.set_is_deleted true)) st)
      | None =>
          match
            inbox_insert (tombstone (i + 1) now sender a target)
                         (inbox (store_db st))
          with
          | Ok t =>
              Apply row
                    (with_transient ((i + 1) :: transient st)
                                    (on_db (with_inbox t) st))
          | Raise _ => Refuse "duplicate protocol identifier"
          end
      end
  end.

(** An inbox row reversed by the Undo stored under key [i]. *)
Definition mark_undone (i : Z) (r : Inbox.InboxObject) : Inbox.InboxObject :=
  Inbox.mk (Inbox.id r) (Inbox.created_at r) (Inbox.actor_id r)
           (Inbox.ap_type r) (Inbox.ap_id r) (Inbox.ap_published_at r)
           (Inbox.in_reply_to r) (Inbox.activity_object_ap_id r)
           (Inbox.visibility r) (Inbox.conversation r)
           (Inbox.has_local_mention r) (Inbox.relates_to_inbox_object_id r)
           (Inbox.relates_to_outbox_object_id r) (Some i)
           (Inbox.liked_via_outbox_object_ap_id r)
           (Inbox.announced_via_outbox_object_ap_id r)
           (Inbox.is_bookmarked r) true (Inbox.replies_count r).

(** Modelled from the spec: the Undo handler of the missing inbox engine:
    "Undo targeting a Follow: removes the Follower/Following materialization;
    queues no counter change"; the Follow of the inbox is marked as reversed
    ("[undone_by_inbox_object_id] marks the row as reversed by a later
    Undo").  An Undo of anything else is stored with no effect. *)
Definition handle_undo (now : datetime) (a : Raw.Activity) (i sender : Z)
  (st : Store) : Effect :=
  match Raw.object a with
  | None => Apply (new_InboxObject i now sender a false None None) st
  | Some target =>
      match get_inbox_object_by_ap_id (store_db st) target with
      | Some f =>
          let row :=
            new_InboxObject i now sender a false (Some (Inbox.id f)) None in
          if String.eqb (Inbox.ap_type f) "Follow" then
            Apply row
                  (with_follower
                     (filter (fun e =>
                                negb (Followers.inbox_object_id (fst e)
                                      =? Inbox.id f))
                             (follower st))
                     (on_db (update_inbox target (mark_undone i)) st))
          else Apply row st
      | None =>
          match get_outbox_object_by_ap_id (store_db st) target with
          | Some o =>
              let row :=
                new_InboxObject i now sender a false None
                                (Some (Outbox.id o)) in
              if String.eqb (Outbox.ap_type o) "Follow" then
                Apply row
                      (with_following
                         (filter (fun e =>
                                    negb (Followings.outbox_object_id (fst e)
                                          =? Outbox.id o))
                                 (following st))
                         st)
              else Apply row st
          | None => Apply (new_InboxObject i now sender a false None None) st
          end
      end
  end.

(** Modelled from the spec: the Accept and Reject handlers of the missing
    inbox engine: "(answering an outbox Follow): updates the matching
    Following row's state"; the row is made when the Follow has none yet. *)
Definition set_following_state (now : datetime) (sender : Z)
  (ap_actor_id : string) (o : Outbox.OutboxObject) (s : FollowState)
  (st : Store) : option Store :=
  if existsb (fun e => Followings.outbox_object_id (fst e) =? Outbox.id o)
             (following st)
  then
    Some (with_following
            (map (fun e =>
                    if Followings.outbox_object_id (fst e) =? Outbox.id o
                    then (fst e, s) else e)
                 (following st))
            st)
  else
    option_map (fun t => with_following t st)
      (following_insert
         (Followings.mk 0 now sender (Outbox.id o) ap_actor_id, s)
         (following st)).

Definition handle_answer (now : datetime) (a : Raw.Activity) (i sender : Z)
  (s : FollowState) (st : Store) : Effect :=
  let row := new_InboxObject i now sender a false None None in
  match Raw.object a with
  | None => Apply row st
  | Some target =>
      match get_outbox_object_by_ap_id (store_db st) target with
      | None => Apply row st
      | Some o =>
          if String.eqb (Outbox.ap_type o) "Follow" then
            match set_following_state now sender (Raw.actor a) o s st with
            | Some st1 => Apply row st1
            | None => Refuse "already following this actor"
            end
          else Apply row st
      end
  end.

Section InboxEngine.

(** Which activity types are refused without a verified signature; whether
    followers are approved by hand; the identifiers allotted to an Accept
    stored under a given outbox key; the inbox URL of an actor. *)
Variable requires_authentication : string -> bool.
Variable manually_approves_followers : bool.
Variable accept_public_id : Z -> string.
Variable accept_ap_id : Z -> string.
Variable inbox_url : Z -> string.

(** Modelled from the spec: the outbox engine's Accept "(responding to an
    inbox Follow): flips the corresponding Follower row state; queues
    delivery to the requester". *)
Definition send_accept (now : datetime) (a : Raw.Activity)
  (follow_key requester : Z) (st : Store) : option Store :=
  let db := store_db st in
  let k := fresh_id (map Outbox.id (outbox db)) in
  let accept :=
    Outbox.mk k now (accept_public_id k) "Accept" (accept_ap_id k) None
              (Some (Raw.id a)) now (Raw.visibility a) None 0 0 0 false
              (Some follow_key) None None in
  match outbox_insert accept (outbox db) with
  | Raise _ => None
  | Ok t =>
      Some
        (with_follower
           (map (fun e =>
                   if Followers.inbox_object_id (fst e) =? follow_key
                   then (fst e, FOLLOW_ACCEPTED) else e)
                (follower st))
           (on_db (fun db =>
                     with_outgoing_activity
                       (outgoing_activity db
                        ++ [new_OutgoingActivity
                              (fresh_id
                                 (map Outgoing.id (outgoing_activity db)))
                              now (inbox_url requester) (Some k) None None])
                       (with_outbox t db))
                  st))
  end.

(** Modelled from the spec: the Follow handler of the missing inbox engine:
    "create pending Follower row (or auto-accept per configuration) and a
    Notification; queue an Accept/Reject back through the Outbox Engine".
    With approval by hand the row stays pending and the answer is queued
    when the owner gives it; a Follow of an actor who has a Follower row is
    rejected as a whole. *)
Definition handle_follow (now : datetime) (a : Raw.Activity) (i sender : Z)
  (st : Store) : Effect :=
  let row := new_InboxObject i now sender a false None None in
  match
    follower_insert (Followers.mk 0 now sender i (Raw.actor a), FOLLOW_PENDING)
                    (follower st)
  with
  | None => Refuse "already a follower"
  | Some t =>
      let st1 := with_follower t st in
      if manually_approves_followers then
        Apply row
              (on_db (add_notification now PENDING_INCOMING_FOLLOWER sender
                                       None (Some i))
                     st1)
      else
        match send_accept now a i sender st1 with
        | None => Refuse "duplicate protocol identifier"
        | Some st2 =>
            Apply row
                  (on_db (add_notification now NEW_FOLLOWER sender None
                                           (Some i))
                         st2)
        end
  end.

(** Modelled from the spec: step (4) of the missing [ingest], the dispatch
    on the activity type; "unknown/unsupported types are persisted as opaque
    InboxObjects with no side effect". *)
Definition dispatch (now : datetime) (a : Raw.Activity) (i sender : Z)
  (st : Store) : Effect :=
  if String.eqb (Raw.type a) "Follow" then handle_follow now a i sender st
  else if String.eqb (Raw.type a) "Accept" then
    handle_answer now a i sender FOLLOW_ACCEPTED st
  else if String.eqb (Raw.type a) "Reject" then
    handle_answer now a i sender FOLLOW_REJECTED st
  else if String.eqb (Raw.type a) "Undo" then handle_undo now a i sender st
  else if String.eqb (Raw.type a) "Create" then
    handle_create now a i sender st
  else if String.eqb (Raw.type a) "Like" then
    handle_react now a i sender incr_likes LIKE st
  else if String.eqb (Raw.type a) "Announce" then
    handle_react now a i sender incr_announces ANNOUNCE st
  else if String.eqb (Raw.type a) "Delete" then
    handle_delete now a i sender st
  else Apply (new_InboxObject i now sender a false None None) st.

(** Modelled from the spec: the inbox engine's [ingest], whose code is
    missing: "(1) reject if signature not verified and the activity type
    requires authentication; (2) deduplicate by protocol identifier - if
    already present, treat as a replay and return the existing row without
    re-applying side effects; (3) resolve or lazily fetch the Actor; (4)
    dispatch on activity type".  The sender arrives resolved, as the key of
    its [actor] row; the row and its side effects are stored together or not
    at all. *)
Definition ingest (now : datetime) (a : Raw.Activity) (sender : Z)
  (verified : bool) (st : Store) : Ingested :=
  if negb verified && requires_authentication (Raw.type a) then
    Rejected "signature not verified"
  else
    match get_inbox_object_by_ap_id (store_db st) (Raw.id a) with
    | Some row => Stored row st
    | None =>
        match
          dispatch now a (fresh_id (map Inbox.id (inbox (store_db st))))
                   sender st
        with
        | Refuse reason => Rejected reason
        | Apply row st1 =>
            match inbox_insert row (inbox (store_db st1)) with
            | Ok t => Stored row (on_db (with_inbox t) st1)
            | Raise _ => Rejected "duplicate protocol identifier"
            end
        end
    end.


End InboxEngine.





(** ** Further scenarios *)

Module Fixture.

(** A Follow of the local actor, received long ago. *)
Definition old_follow : Inbox.InboxObject :=
  Inbox.mk 3 0 1 "Follow" "https://remote.example/follow/1" 0 None
           (Some "https://blog.example") PUBLIC None false None None None
           None None false false 0.

Definition follow_db : DB := mkDB [] [] [old_follow] [] [] [].

(** A queue and an inbox with rows of several ages (in days). *)
Definition aged_incoming (i days : Z) (errored : bool)
  : Incoming.IncomingActivity :=
  Incoming.mk i (timedelta_days days) None None None 0 None None false
              errored None.

Definition aged_outgoing (i days : Z) (errored : bool)
  : Outgoing.OutgoingActivity :=
  Outgoing.mk i (timedelta_days days) "https://remote.example/inbox" (Some 1)
              None None 0 None None None None false errored None.

Definition aged_db : DB :=
  mkDB [aged_incoming 1 10 false; aged_incoming 2 40 false;
        aged_incoming 3 10 true]
       [aged_outgoing 1 10 false; aged_outgoing 2 40 false;
        aged_outgoing 3 60 false]
       [Scenario.inbox_note 1 "https://remote.example/note/1"
                            (timedelta_days 10) None None 0;
        Scenario.inbox_note 2 "https://remote.example/note/2"
                            (timedelta_days 45) None None 0;
        old_follow]
       [Scenario.local_root] [] [].

(** Two notes whose time of receipt is at odds with their publication time:
    one received on day 99 and published on day 0, one received on day 0
    and published on day 95. *)
Definition late_old : Inbox.InboxObject :=
  Inbox.set_created_at (timedelta_days 99)
    (Scenario.inbox_note 1 "https://remote.example/note/old" 0 None None 0).

Definition early_fresh : Inbox.InboxObject :=
  Inbox.set_created_at 0
    (Scenario.inbox_note 2 "https://remote.example/note/fresh"
                         (timedelta_days 95) None None 0).

Definition dated_db : DB := mkDB [] [] [late_old; early_fresh] [] [] [].


Definition after_like_store : Store :=
  mkStore Scenario.after_like [] [] [] [].

Definition accept_public_id (k : Z) : string :=
  ("accept-" ++ NilZero.string_of_int (Z.to_int k))%string.

Definition accept_ap_id (k : Z) : string :=
  (Scenario.BASE_URL ++ "/o/" ++ accept_public_id k)%string.

Definition inbox_url (actor_id : Z) : string :=
  "https://remote.example/inbox".

Definition ingest_now :=
  ingest Scenario.requires_authentication false accept_public_id accept_ap_id
         inbox_url.

(** The same Like sent again by another route: other sender key, no
    signature. *)
Definition like_again : Raw.Activity :=
  Raw.mk "https://remote.example/like/1" "Like" "https://other.example"
         (Some "https://blog.example/o/n1") None (Some 20) UNLISTED None true
         None.

(** A Follow of the local actor, and the store its first ingest leaves. *)
Definition follow_activity : Raw.Activity :=
  Raw.mk "https://remote.example/follow/9" "Follow" "https://remote.example"
         (Some "https://blog.example") None None PUBLIC None false None.

Definition follow_row : Inbox.InboxObject :=
  new_InboxObject 2 70 7 follow_activity false None None.

Definition after_follow_store : Store :=
  mkStore
    (mkDB []
          [new_OutgoingActivity 1 70 "https://remote.example/inbox" (Some 2)
                                None None]
          [Scenario.like_row; follow_row]
          [Outbox.set_counters 1 0 0 Scenario.liked_note;
           Outbox.mk 2 70 "accept-2" "Accept"
                     "https://blog.example/o/accept-2" None
                     (Some "https://remote.example/follow/9") 70 PUBLIC None
                     0 0 0 false (Some 2) None None]
          []
          [Notif.mk 1 50 (Some LIKE) true (Some 7) (Some 1) (Some 1);
           Notif.mk 2 70 (Some NEW_FOLLOWER) true (Some 7) None (Some 2)])
    [(Followers.mk 1 70 7 2 "https://remote.example", FOLLOW_ACCEPTED)]
    [] [] [].

(** A poll of the outbox with one choice allowed, a vote for it, and a
    second vote of the same actor. *)
Definition poll_object : Outbox.OutboxObject :=
  Outbox.mk 1 0 "q1" "Question" "https://blog.example/o/q1" None None 0
            PUBLIC None 0 0 0 false None None None.

Definition poll_store : Store :=
  mkStore (mkDB [] [] [] [poll_object] [] []) [] [] []
          [mkQuestion 1 "oneOf" [("yes", 0); ("no", 0)]].

Definition vote_activity : Raw.Activity :=
  Raw.mk "https://remote.example/vote/1" "Create" "https://remote.example"
         None (Some "https://blog.example/o/q1") None PUBLIC None false
         (Some "yes").

Definition other_vote : Raw.Activity :=
  Raw.mk "https://remote.example/vote/2" "Create" "https://remote.example"
         None (Some "https://blog.example/o/q1") None PUBLIC None false
         (Some "no").

Definition vote_row : Inbox.InboxObject :=
  new_InboxObject 1 50 7 vote_activity false None None.

Definition after_vote_store : Store :=
  mkStore (mkDB [] [] [vote_row] [poll_object]
                [Poll.mk 1 50 1 "oneOf" 1 7 "yes"] [])
          [] [] []
          [mkQuestion 1 "oneOf" [("yes", 1); ("no", 0)]].

End Fixture.

(** * Properties *)

(** ** Three-valued logic *)

Lemma holds_and2 (a b : Sql.tri) :
  Sql.holds (Sql.and2 a b) = Sql.holds a && Sql.holds b.
Proof. destruct a as [[|]|], b as [[|]|]; reflexivity. Qed.

Lemma holds_and_cons (a : Sql.tri) (cs : list Sql.tri) :
  Sql.holds (Sql.and_ (a :: cs)) = Sql.holds a && Sql.holds (Sql.and_ cs).
Proof. apply holds_and2. Qed.

Lemma holds_Some (b : bool) : Sql.holds (Some b) = b.
Proof. destruct b; reflexivity. Qed.

Lemma holds_is_false (b : bool) : Sql.holds (Sql.is_ b false) = negb b.
Proof. destruct b; reflexivity. Qed.

Lemma holds_is_null {A} (x : option A) :
  Sql.holds (Sql.is_null x) = match x with None => true | Some _ => false end.
Proof. destruct x; reflexivity. Qed.

Lemma delete_where_In {R} (c : R -> Sql.tri) (t : list R) (r : R) :
  In r (Sql.delete_where c t) <-> In r t /\ Sql.holds (c r) = false.
Proof.
  unfold Sql.delete_where. rewrite filter_In, negb_true_iff. reflexivity.
Qed.

Lemma deleted_iff {R} (c : R -> Sql.tri) (t : list R) (r : R) :
  In r t /\ ~ In r (Sql.delete_where c t) <-> In r t /\ Sql.holds (c r) = true.
Proof.
  rewrite delete_where_In. split.
  - intros [Hin Hn]. split; [exact Hin|].
    destruct (Sql.holds (c r)); [reflexivity|]. exfalso. apply Hn. now split.
  - intros [Hin Hc]. split; [exact Hin|]. intros [_ Hf]. congruence.
Qed.

(** ** The pruner *)

Section PrunerFacts.

Variable BASE_URL : string.
Variable INBOX_RETENTION_DAYS : Z.

Lemma incoming_where_holds (now : datetime) (r : Incoming.IncomingActivity) :
  Sql.holds (incoming_where INBOX_RETENTION_DAYS now r) = true
  <-> Incoming.created_at r < cutoff INBOX_RETENTION_DAYS now
      /\ Incoming.is_errored r = false.
Proof.
  unfold incoming_where.
  rewrite !holds_and_cons, holds_is_false, holds_Some.
  cbn [Sql.and_ fold_right Sql.holds Sql.TRUE].
  rewrite andb_true_r, andb_true_iff, Z.ltb_lt, negb_true_iff. reflexivity.
Qed.

Lemma outgoing_where_holds (now : datetime) (r : Outgoing.OutgoingActivity) :
  Sql.holds (outgoing_where INBOX_RETENTION_DAYS now r) = true
  <-> Outgoing.created_at r < cutoff INBOX_RETENTION_DAYS now
      /\ Outgoing.is_errored r = false.
Proof.
  unfold outgoing_where.
  rewrite !holds_and_cons, holds_is_false, holds_Some.
  cbn [Sql.and_ fold_right Sql.holds Sql.TRUE].
  rewrite andb_true_r, andb_true_iff, Z.ltb_lt, negb_true_iff. reflexivity.
Qed.

(** C8: the pruner deletes a row of [incoming_activity] or of
    [outgoing_activity] exactly when its [created_at] is before
    [now - INBOX_RETENTION_DAYS] days and its [is_errored] flag is false;
    a row whose flag is set stays, and no row is added. *)
Theorem prune_queue_rows_iff :
  (forall now t r,
      In r t /\ ~ In r (_prune_old_incoming_activities
                          INBOX_RETENTION_DAYS now t)
      <-> In r t
          /\ Incoming.created_at r < now - timedelta_days INBOX_RETENTION_DAYS
          /\ Incoming.is_errored r = false)
  /\ (forall now t r,
         In r t /\ ~ In r (_prune_old_outgoing_activities
                             INBOX_RETENTION_DAYS now t)
         <-> In r t
             /\ Outgoing.created_at r
                < now - timedelta_days INBOX_RETENTION_DAYS
             /\ Outgoing.is_errored r = false)
  /\ (forall now t r,
         In r t -> Incoming.is_errored r = true ->
         In r (_prune_old_incoming_activities INBOX_RETENTION_DAYS now t))
  /\ (forall now t r,
         In r t -> Outgoing.is_errored r = true ->
         In r (_prune_old_outgoing_activities INBOX_RETENTION_DAYS now t)).
Proof.
  split; [|split; [|split]].
  - intros now t r.
    unfold _prune_old_incoming_activities. rewrite deleted_iff.
    rewrite incoming_where_holds. reflexivity.
  - intros now t r.
    unfold _prune_old_outgoing_activities. rewrite deleted_iff.
    rewrite outgoing_where_holds. reflexivity.
  - intros now t r Hin He. apply delete_where_In. split; [exact Hin|].
    destruct (Sql.holds _) eqn:E; [|reflexivity].
    apply incoming_where_holds in E. destruct E; congruence.
  - intros now t r Hin He. apply delete_where_In. split; [exact Hin|].
    destruct (Sql.holds _) eqn:E; [|reflexivity].
    apply outgoing_where_holds in E. destruct E; congruence.
Qed.

End PrunerFacts.

Lemma and2_Some (a b : bool) : Sql.and2 (Some a) (Some b) = Some (a && b).
Proof. destruct a, b; reflexivity. Qed.

Lemma distinct_In (l : list string) (x : string) :
  In x (Sql.distinct l) -> In x l.
Proof.
  induction l as [|y l IH]; simpl; [tauto|].
  intros [H|H]; [now left|]. apply filter_In in H. right. now apply IH.
Qed.

Lemma mem_In (x : string) (l : list string) :
  Sql.mem x l = true <-> In x l.
Proof.
  unfold Sql.mem. rewrite existsb_exists. split.
  - intros [y [Hy E]]. apply String.eqb_eq in E. now subst.
  - intros H. exists x. split; [exact H|apply String.eqb_refl].
Qed.

Section InboxPruning.

Variable BASE_URL : string.
Variable INBOX_RETENTION_DAYS : Z.

Let where_ := inbox_where BASE_URL INBOX_RETENTION_DAYS.
Let prune := _prune_old_inbox_objects BASE_URL INBOX_RETENTION_DAYS.

(** No conversation of the subquery matches the pattern of the base URL. *)
Lemma outbox_conversation_not_like (ob : list Outbox.OutboxObject)
  (c : string) :
  In c (outbox_conversation BASE_URL ob) ->
  Sql.like_match (base_url_pattern BASE_URL) c = false.
Proof.
  unfold outbox_conversation. intros H. apply distinct_In in H.
  apply in_flat_map in H. destruct H as [o [_ H]].
  destruct (Outbox.conversation o) as [c'|]; simpl in H.
  - destruct (Sql.like_match (base_url_pattern BASE_URL) c') eqn:E;
      simpl in H; [tauto|].
    destruct H as [H|[]]. now subst.
  - tauto.
Qed.

(** The condition written for local conversations is TRUE on every row: it
    holds no row back. *)
Lemma keep_local_conversation_vacuous (ob : list Outbox.OutboxObject)
  (r : Inbox.InboxObject) :
  keep_local_conversation BASE_URL ob r = Sql.TRUE.
Proof.
  unfold keep_local_conversation.
  destruct (Inbox.conversation r) as [c|]; [|reflexivity].
  cbn [Sql.or_ fold_right Sql.not_like Sql.like Sql.not_ option_map
       Sql.is_null Sql.not_in].
  destruct (Sql.like_match (base_url_pattern BASE_URL) c) eqn:E;
    [|reflexivity].
  assert (M : Sql.mem c (outbox_conversation BASE_URL ob) = false).
  { destruct (Sql.mem c _) eqn:M; [|reflexivity].
    apply mem_In, outbox_conversation_not_like in M. congruence. }
  unfold Sql.not_in, Sql.in_. revert M.
  destruct (outbox_conversation BASE_URL ob); [reflexivity|].
  intros M. rewrite M. reflexivity.
Qed.

(** The delete condition of the inbox, flag by flag. *)
Lemma inbox_where_holds (now : datetime) (ob : list Outbox.OutboxObject)
  (r : Inbox.InboxObject) :
  Sql.holds (where_ now ob r) =
  negb (Inbox.is_bookmarked r)
  && match Inbox.liked_via_outbox_object_ap_id r with
     | None => true | Some _ => false end
  && match Inbox.announced_via_outbox_object_ap_id r with
     | None => true | Some _ => false end
  && negb (Inbox.has_local_mention r)
  && Sql.holds (keep_outbox_activity BASE_URL r)
  && negb (VisibilityEnum_eqb (Inbox.visibility r) DIRECT
           && String.eqb (Inbox.ap_type r) "Note")
  && negb (String.eqb (Inbox.ap_type r) "Move")
  && (Inbox.ap_published_at r <? cutoff INBOX_RETENTION_DAYS now).
Proof.
  unfold where_, inbox_where.
  rewrite !holds_and_cons, keep_local_conversation_vacuous.
  unfold keep_bookmarked, keep_liked, keep_announced, keep_local_mention,
    keep_direct_message, keep_move, retention_filter.
  rewrite !holds_is_false, !holds_is_null, holds_Some.
  cbn [Sql.and_ fold_right Sql.holds Sql.TRUE Sql.in_ Sql.not_in Sql.mem
       existsb].
  unfold Sql.TRUE, Sql.not_in, Sql.in_, Sql.mem. cbn [existsb].
  rewrite !and2_Some. cbn [Sql.not_ option_map].
  rewrite !holds_Some, !orb_false_r, !andb_true_r. cbn [andb].
  rewrite !andb_assoc. reflexivity.
Qed.

Lemma where_set_created_at (now received : datetime)
  (ob : list Outbox.OutboxObject) (r : Inbox.InboxObject) :
  where_ now ob (Inbox.set_created_at received r) = where_ now ob r.
Proof. destruct r; reflexivity. Qed.

(** The rows the six flag rules name stay, whatever their age. *)
Lemma prune_keeps_flagged (now : datetime) (db : DB) (r : Inbox.InboxObject) :
  Inbox.is_bookmarked r = true
  \/ Inbox.liked_via_outbox_object_ap_id r <> None
  \/ Inbox.announced_via_outbox_object_ap_id r <> None
  \/ Inbox.has_local_mention r = true
  \/ (Inbox.visibility r = DIRECT /\ Inbox.ap_type r = "Note")
  \/ Inbox.ap_type r = "Move" ->
  In r (inbox db) -> In r (prune now db).
Proof.
  intros H Hin. apply delete_where_In. split; [exact Hin|].
  fold (where_ now (outbox db) r). rewrite inbox_where_holds.
  destruct H as [H|[H|[H|[H|[[H1 H2]|H]]]]].
  - rewrite H. reflexivity.
  - destruct (Inbox.liked_via_outbox_object_ap_id r); [|congruence].
    now rewrite andb_false_r.
  - destruct (Inbox.announced_via_outbox_object_ap_id r); [|congruence].
    now rewrite !andb_false_r.
  - rewrite H. now rewrite !andb_false_r.
  - rewrite H1, H2. cbn. now rewrite !andb_false_r.
  - rewrite H. cbn. now rewrite !andb_false_r.
Qed.

Lemma keep_outbox_activity_free (r : Inbox.InboxObject) :
  Sql.holds (keep_outbox_activity BASE_URL r) = true
  <-> match Inbox.activity_object_ap_id r with
      | None => True
      | Some a => Sql.like_match (BASE_URL ++ "%") a = false
      end.
Proof.
  unfold keep_outbox_activity, base_url_pattern.
  destruct (Inbox.activity_object_ap_id r) as [a|]; [|cbn; tauto].
  cbn. destruct (Sql.like_match (BASE_URL ++ "%") a); cbn;
    split; congruence.
Qed.

(** C9: the age test of the inbox delete reads [ap_published_at], the
    publication time the remote document states, and not [created_at], the
    time of receipt.  Changing the time of receipt changes nothing in the
    delete condition.  A row of the inbox that no preservation rule holds
    back is deleted exactly when it was published before the cutoff,
    whenever it was received: published before the cutoff, it goes even if
    it was received after the window started; published within the window,
    it stays however long ago it was received, as any row published within
    the window does.  The stored publication time of a document that has a
    [published] field is that field, whatever the time of receipt. *)
Theorem inbox_age_reads_published_at :
  forall (now received : datetime) (db : DB) (r : Inbox.InboxObject),
    inbox_where BASE_URL INBOX_RETENTION_DAYS now (outbox db)
                (Inbox.set_created_at received r)
    = inbox_where BASE_URL INBOX_RETENTION_DAYS now (outbox db) r
    /\ (In (Inbox.set_created_at received r) (inbox db) ->
        Inbox.is_bookmarked r = false ->
        Inbox.liked_via_outbox_object_ap_id r = None ->
        Inbox.announced_via_outbox_object_ap_id r = None ->
        Inbox.has_local_mention r = false ->
        match Inbox.activity_object_ap_id r with
        | None => True
        | Some a => Sql.like_match (BASE_URL ++ "%") a = false
        end ->
        ~ (Inbox.visibility r = DIRECT /\ Inbox.ap_type r = "Note") ->
        Inbox.ap_type r <> "Move" ->
        (~ In (Inbox.set_created_at received r)
              (_prune_old_inbox_objects BASE_URL INBOX_RETENTION_DAYS now db)
         <-> Inbox.ap_published_at r
             < now - timedelta_days INBOX_RETENTION_DAYS))
    /\ (Inbox.ap_published_at r < now - timedelta_days INBOX_RETENTION_DAYS ->
        retention_filter INBOX_RETENTION_DAYS now
                         (Inbox.set_created_at received r) = Sql.TRUE)
    /\ (now - timedelta_days INBOX_RETENTION_DAYS <= Inbox.ap_published_at r ->
        retention_filter INBOX_RETENTION_DAYS now
                         (Inbox.set_created_at received r) = Sql.FALSE
        /\ (In (Inbox.set_created_at received r) (inbox db) ->
            In (Inbox.set_created_at received r)
               (_prune_old_inbox_objects BASE_URL INBOX_RETENTION_DAYS now
                                         db)))
    /\ (forall p, factory_ap_published_at received (Some p) = p).
Proof.
  intros now received db r. split; [apply where_set_created_at|].
  split; [|split; [|split; [|reflexivity]]].
  - intros Hin Hb Hl Ha Hm Ho Hd Hv.
    assert (W : Sql.holds (where_ now (outbox db)
                                  (Inbox.set_created_at received r))
                = (Inbox.ap_published_at r
                   <? cutoff INBOX_RETENTION_DAYS now)).
    { rewrite where_set_created_at, inbox_where_holds.
      rewrite Hb, Hl, Ha, Hm.
      apply keep_outbox_activity_free in Ho. rewrite Ho.
      assert (D : VisibilityEnum_eqb (Inbox.visibility r) DIRECT
                  && String.eqb (Inbox.ap_type r) "Note" = false).
      { destruct (VisibilityEnum_eqb (Inbox.visibility r) DIRECT) eqn:V;
          [|reflexivity].
        destruct (String.eqb (Inbox.ap_type r) "Note") eqn:T;
          [|reflexivity].
        exfalso. apply Hd. split; [|now apply String.eqb_eq].
        destruct (Inbox.visibility r); try discriminate V. reflexivity. }
      rewrite D. apply String.eqb_neq in Hv. rewrite Hv. reflexivity. }
    unfold _prune_old_inbox_objects. rewrite delete_where_In.
    fold (where_ now (outbox db) (Inbox.set_created_at received r)).
    rewrite W. unfold cutoff. rewrite <- Z.ltb_lt.
    destruct (Inbox.ap_published_at r
              <? now - timedelta_days INBOX_RETENTION_DAYS); split.
    + reflexivity.
    + intros _ [_ F]. discriminate F.
    + intros H. exfalso. apply H. now split.
    + discriminate.
  - intros H. unfold retention_filter, cutoff. destruct r; cbn.
    cbn in H. apply Z.ltb_lt in H. rewrite H. reflexivity.
  - intros H.
    assert (E : (Inbox.ap_published_at (Inbox.set_created_at received r)
                 <? cutoff INBOX_RETENTION_DAYS now) = false).
    { destruct r; cbn. cbn in H. apply Z.ltb_ge. exact H. }
    split.
    + unfold retention_filter. rewrite E. reflexivity.
    + intros Hin. apply delete_where_In. split; [exact Hin|].
      fold (where_ now (outbox db) (Inbox.set_created_at received r)).
      rewrite inbox_where_holds, E. apply andb_false_r.
Qed.

End InboxPruning.

Lemma inbox_age_reads_published_at_witness :
  In Fixture.late_old (inbox Fixture.dated_db)
  /\ ~ In Fixture.late_old
          (_prune_old_inbox_objects Scenario.BASE_URL 15 (timedelta_days 100)
                                    Fixture.dated_db)
  /\ In Fixture.early_fresh
        (_prune_old_inbox_objects Scenario.BASE_URL 15 (timedelta_days 100)
                                  Fixture.dated_db).
Proof.
  pose proof (inbox_age_reads_published_at Scenario.BASE_URL 15
                (timedelta_days 100) (timedelta_days 99) Fixture.dated_db
                (Scenario.inbox_note 1 "https://remote.example/note/old" 0
                                     None None 0))
    as (_ & D & _).
  pose proof (inbox_age_reads_published_at Scenario.BASE_URL 15
                (timedelta_days 100) 0 Fixture.dated_db
                (Scenario.inbox_note 2 "https://remote.example/note/fresh"
                                     (timedelta_days 95) None None 0))
    as (_ & _ & _ & K & _).
  split; [left; reflexivity|]. split.
  - apply D.
    + left. reflexivity.
    + reflexivity.
    + reflexivity.
    + reflexivity.
    + reflexivity.
    + exact I.
    + intros [V _]. discriminate V.
    + discriminate.
    + vm_compute. reflexivity.
  - apply K.
    + vm_compute. discriminate.
    + right. left. reflexivity.
Defined.

(** C3: two inbox notes, each in a conversation in which the outbox has a
    note of its own (one conversation identified under a remote URL, one under
    the local base URL), published at time 0, carrying none of the flags.
    With a window of 15 days and [now] at day 100 the pruner deletes both:
    the condition the source writes for "objects related to local
    conversations" is TRUE on each of them. *)
Theorem prune_deletes_local_conversation_rows :
  _prune_old_inbox_objects Scenario.BASE_URL 15 (timedelta_days 100)
                           Scenario.conversations_db = []
  /\ Inbox.conversation Scenario.remote_root
     = Outbox.conversation Scenario.local_reply
  /\ Inbox.conversation Scenario.remote_reply
     = Outbox.conversation Scenario.local_root
  /\ keep_local_conversation Scenario.BASE_URL
       (outbox Scenario.conversations_db) Scenario.remote_root = Sql.TRUE
  /\ keep_local_conversation Scenario.BASE_URL
       (outbox Scenario.conversations_db) Scenario.remote_reply = Sql.TRUE.
Proof. vm_compute. repeat split. Qed.

(** ** Votes *)

Lemma clash_with_id (i : Z) (a b : Poll.PollAnswer) :
  poll_answer_clash b (poll_answer_with_id i a) = poll_answer_clash a b.
Proof.
  unfold poll_answer_clash, uix_outbox_object_id_name_actor_id,
    uix_one_of_outbox_object_id_actor_id, in_one_of_index.
  cbn [poll_answer_with_id Poll.outbox_object_id Poll.name Poll.actor_id
       Poll.poll_type].
  rewrite (Z.eqb_sym (Poll.outbox_object_id b)),
    (Z.eqb_sym (Poll.actor_id b)), (String.eqb_sym (Poll.name b)).
  rewrite (andb_comm (Poll.poll_type b =? "oneOf")%string). reflexivity.
Qed.

Lemma ForallOrdPairs_snoc {A} (R : A -> A -> Prop) (l : list A) (x : A) :
  ForallOrdPairs R l -> Forall (fun b => R b x) l ->
  ForallOrdPairs R (l ++ [x]).
Proof.
  induction 1 as [|a l Ha Hl IH]; intros Hx; simpl.
  - constructor; constructor.
  - inversion Hx; subst. constructor.
    + apply Forall_app. split; [exact Ha|]. constructor; [assumption|constructor].
    + now apply IH.
Qed.

(** No two rows of a table of votes clash. *)
Lemma poll_answer_table_no_clash (t : list Poll.PollAnswer) :
  poll_answer_table t ->
  ForallOrdPairs (fun a b => poll_answer_clash a b = false) t.
Proof.
  induction 1 as [|a t t' Ht IH Hins]; [constructor|].
  unfold poll_answer_insert in Hins.
  destruct (existsb (poll_answer_clash a) t) eqn:E; [discriminate|].
  injection Hins as <-. apply ForallOrdPairs_snoc; [exact IH|].
  apply Forall_forall. intros b Hb. rewrite clash_with_id.
  destruct (poll_answer_clash a b) eqn:C; [|reflexivity].
  assert (existsb (poll_answer_clash a) t = true)
    by (apply existsb_exists; eauto).
  congruence.
Qed.

Lemma filter_none {A} (f : A -> bool) (l : list A) :
  (forall x, In x l -> f x = false) -> filter f l = [].
Proof.
  induction l as [|x l IH]; intros H; simpl; [reflexivity|].
  rewrite (H x (or_introl eq_refl)). apply IH. intros y Hy. apply H. now right.
Qed.

Lemma no_clash_at_most_one (f : Poll.PollAnswer -> bool)
  (t : list Poll.PollAnswer) :
  (forall a b, f a = true -> f b = true -> poll_answer_clash a b = true) ->
  ForallOrdPairs (fun a b => poll_answer_clash a b = false) t ->
  (List.length (filter f t) <= 1)%nat.
Proof.
  intros Hf. induction 1 as [|a l Ha Hl IH]; simpl; [lia|].
  destruct (f a) eqn:Fa; [|exact IH].
  rewrite filter_none; [simpl; lia|].
  intros x Hx. destruct (f x) eqn:Fx; [|reflexivity].
  rewrite Forall_forall in Ha. specialize (Ha x Hx).
  rewrite (Hf a x Fa Fx) in Ha. discriminate.
Qed.

Lemma filter_twice {A} (f g : A -> bool) (l : list A) :
  filter f (filter g l) = filter (fun x => g x && f x) l.
Proof.
  induction l as [|x l IH]; simpl; [reflexivity|].
  destruct (g x); simpl; [destruct (f x)|]; now rewrite IH.
Qed.

Lemma insert_rejected (a b : Poll.PollAnswer) (t : list Poll.PollAnswer) :
  In b t -> poll_answer_clash a b = true -> poll_answer_insert a t = None.
Proof.
  intros Hin Hc. unfold poll_answer_insert.
  assert (E : existsb (poll_answer_clash a) t = true)
    by (apply existsb_exists; eauto).
  now rewrite E.
Qed.

(** C7: in a table of votes, at most one row with [poll_type = "oneOf"]
    exists per (poll, actor), and at most one row per (poll, answer, actor)
    whatever the type.  A further vote of an actor who has a "oneOf" row on
    the poll is rejected when it is itself "oneOf", also for another answer;
    a vote that repeats (poll, answer, actor) is rejected; a vote whose type
    is not "oneOf" is accepted, and adds a row, when the actor has no row for
    that answer on that poll; and the (poll, actor) index holds only rows
    whose type is "oneOf". *)
Theorem poll_answer_uniqueness :
  (forall t poll actor,
      poll_answer_table t ->
      (List.length (filter in_one_of_index (votes_of poll actor t)) <= 1)%nat)
  /\ (forall t poll answer actor,
         poll_answer_table t ->
         (List.length (votes_for poll answer actor t) <= 1)%nat)
  /\ (forall t a b,
         In b t ->
         Poll.poll_type a = "oneOf" -> Poll.poll_type b = "oneOf" ->
         Poll.outbox_object_id a = Poll.outbox_object_id b ->
         Poll.actor_id a = Poll.actor_id b ->
         poll_answer_insert a t = None)
  /\ (forall t a b,
         In b t ->
         Poll.outbox_object_id a = Poll.outbox_object_id b ->
         Poll.name a = Poll.name b ->
         Poll.actor_id a = Poll.actor_id b ->
         poll_answer_insert a t = None)
  /\ (forall t a,
         Poll.poll_type a <> "oneOf" ->
         votes_for (Poll.outbox_object_id a) (Poll.name a) (Poll.actor_id a) t
         = [] ->
         exists t',
           poll_answer_insert a t = Some t'
           /\ List.length t' = S (List.length t))
  /\ (forall a b,
         uix_one_of_outbox_object_id_actor_id a b = true ->
         Poll.poll_type a = "oneOf" /\ Poll.poll_type b = "oneOf").
Proof.
  split; [|split; [|split; [|split; [|split]]]].
  - intros t poll actor Ht. unfold votes_of. rewrite filter_twice.
    apply no_clash_at_most_one; [|now apply poll_answer_table_no_clash].
    intros a b Ha Hb.
    apply andb_true_iff in Ha. destruct Ha as [Ha Ia].
    apply andb_true_iff in Ha. destruct Ha as [Pa Aa].
    apply andb_true_iff in Hb. destruct Hb as [Hb Ib].
    apply andb_true_iff in Hb. destruct Hb as [Pb Ab].
    apply Z.eqb_eq in Pa, Aa, Pb, Ab.
    unfold poll_answer_clash, uix_one_of_outbox_object_id_actor_id.
    rewrite Ia, Ib, Pa, Pb, Aa, Ab, !Z.eqb_refl. apply orb_true_r.
  - intros t poll answer actor Ht. unfold votes_for, votes_of.
    rewrite filter_twice.
    apply no_clash_at_most_one; [|now apply poll_answer_table_no_clash].
    intros a b Ha Hb.
    apply andb_true_iff in Ha. destruct Ha as [Ha Na].
    apply andb_true_iff in Ha. destruct Ha as [Pa Aa].
    apply andb_true_iff in Hb. destruct Hb as [Hb Nb].
    apply andb_true_iff in Hb. destruct Hb as [Pb Ab].
    apply Z.eqb_eq in Pa, Aa, Pb, Ab. apply String.eqb_eq in Na, Nb.
    unfold poll_answer_clash, uix_outbox_object_id_name_actor_id.
    rewrite Na, Nb, Pa, Pb, Aa, Ab, !Z.eqb_refl, String.eqb_refl.
    reflexivity.
  - intros t a b Hin Ta Tb Hp Ha. apply (insert_rejected a b); [exact Hin|].
    unfold poll_answer_clash, uix_one_of_outbox_object_id_actor_id,
      in_one_of_index.
    rewrite Ta, Tb, Hp, Ha, !Z.eqb_refl. apply orb_true_r.
  - intros t a b Hin Hp Hn Ha. apply (insert_rejected a b); [exact Hin|].
    unfold poll_answer_clash, uix_outbox_object_id_name_actor_id.
    rewrite Hp, Hn, Ha, !Z.eqb_refl, String.eqb_refl. reflexivity.
  - intros t a Ta Hnone. unfold poll_answer_insert.
    assert (E : existsb (poll_answer_clash a) t = false).
    { destruct (existsb (poll_answer_clash a) t) eqn:E; [|reflexivity].
      apply existsb_exists in E. destruct E as [b [Hin Hc]].
      unfold poll_answer_clash, uix_one_of_outbox_object_id_actor_id,
        in_one_of_index in Hc.
      apply String.eqb_neq in Ta. rewrite Ta in Hc. cbn [andb] in Hc.
      rewrite orb_false_r in Hc.
      unfold uix_outbox_object_id_name_actor_id in Hc.
      apply andb_true_iff in Hc. destruct Hc as [Hc Ac].
      apply andb_true_iff in Hc. destruct Hc as [Pc Nc].
      assert (Hb : In b (votes_for (Poll.outbox_object_id a) (Poll.name a)
                                   (Poll.actor_id a) t)).
      { unfold votes_for, votes_of. rewrite !filter_In. repeat split.
        - exact Hin.
        - rewrite Z.eqb_sym in Pc. rewrite Z.eqb_sym in Ac.
          now rewrite Pc, Ac.
        - now rewrite String.eqb_sym. }
      rewrite Hnone in Hb. destruct Hb. }
    rewrite E. eexists. split; [reflexivity|].
    rewrite length_app. simpl. lia.
  - intros a b H. unfold uix_one_of_outbox_object_id_actor_id in H.
    apply andb_true_iff in H. destruct H as [H _].
    apply andb_true_iff in H. destruct H as [H _].
    apply andb_true_iff in H. destruct H as [Ia Ib].
    unfold in_one_of_index in Ia, Ib. now apply String.eqb_eq in Ia, Ib.
Qed.

(** ** The payload of a queue row *)

Lemma fresh_id_positive (ids : list Z) : 1 <= fresh_id ids.
Proof.
  unfold fresh_id.
  assert (0 <= fold_right Z.max 0 ids); [|lia].
  induction ids as [|x l IH]; simpl; lia.
Qed.

(** C10: [anybox_object] returns the outbox object the row links when
    [outbox_object_id] is set, otherwise the inbox object it links when
    [inbox_object_id] is set, and raises [ValueError] when both are NULL.
    A key is "set" for the accessor when it is not NULL and not 0, and the
    keys the database assigns are at least 1.  A row with both links NULL
    can be created, and the accessor raises on it. *)
Theorem anybox_object_cases :
  (forall db r i,
      Outgoing.outbox_object_id r = Some i -> i <> 0 ->
      anybox_object db r
      = Ok (option_map FromOutbox
                       (find (fun o => Outbox.id o =? i) (outbox db))))
  /\ (forall db r j,
         Outgoing.outbox_object_id r = None ->
         Outgoing.inbox_object_id r = Some j -> j <> 0 ->
         anybox_object db r
         = Ok (option_map FromInbox
                          (find (fun o => Inbox.id o =? j) (inbox db))))
  /\ (forall db r,
         Outgoing.outbox_object_id r = None ->
         Outgoing.inbox_object_id r = None ->
         anybox_object db r = Raise (ValueError "Should never happen"))
  /\ (forall ids, fresh_id ids <> 0)
  /\ (Outgoing.outbox_object_id Scenario.unlinked_activity = None
      /\ Outgoing.inbox_object_id Scenario.unlinked_activity = None
      /\ forall db,
          anybox_object db Scenario.unlinked_activity
          = Raise (ValueError "Should never happen")).
Proof.
  split; [|split; [|split; [|split]]].
  - intros db r i Hi Hz. unfold anybox_object, outbox_object, truthy.
    rewrite Hi. apply Z.eqb_neq in Hz. rewrite Hz. reflexivity.
  - intros db r j Ho Hj Hz. unfold anybox_object, inbox_object, truthy.
    rewrite Ho, Hj. apply Z.eqb_neq in Hz. rewrite Hz. reflexivity.
  - intros db r Ho Hi. unfold anybox_object, truthy. rewrite Ho, Hi.
    reflexivity.
  - intros ids. pose proof (fresh_id_positive ids). lia.
  - repeat split.
Qed.

(** ** The outgoing queue: [fetch_next] *)

Lemma fetch_next_where_due (now : datetime) (r : Outgoing.OutgoingActivity) :
  Sql.holds (fetch_next_where now r) = true <-> due now r.
Proof.
  unfold fetch_next_where, due, next_try_due.
  rewrite !holds_and_cons, !holds_is_false.
  cbn [Sql.and_ fold_right Sql.holds Sql.TRUE].
  rewrite andb_true_r, !andb_true_iff, !negb_true_iff.
  destruct (Outgoing.next_try r) as [t|]; cbn [option_map].
  - rewrite holds_Some, Z.leb_le. split.
    + intros (S & E & T). repeat split; try assumption. now exists t.
    + intros (S & E & t' & Ht & T). injection Ht as <-. tauto.
  - cbn. split.
    + intros (_ & _ & F). discriminate.
    + intros (_ & _ & t' & Ht & _). discriminate.
Qed.

Lemma next_try_leb_total (a b : Outgoing.OutgoingActivity) :
  next_try_leb a b = false -> next_try_leb b a = true.
Proof.
  unfold next_try_leb.
  destruct (Outgoing.next_try a), (Outgoing.next_try b);
    try discriminate; try reflexivity.
  rewrite Z.leb_gt, Z.leb_le. lia.
Qed.

Lemma next_try_leb_trans (a b c : Outgoing.OutgoingActivity) :
  next_try_leb a b = true -> next_try_leb b c = true ->
  next_try_leb a c = true.
Proof.
  unfold next_try_leb.
  destruct (Outgoing.next_try a), (Outgoing.next_try b),
    (Outgoing.next_try c); try discriminate; try reflexivity.
  rewrite !Z.leb_le. lia.
Qed.

Lemma insert_by_next_try_In (r x : Outgoing.OutgoingActivity)
  (l : list Outgoing.OutgoingActivity) :
  In x (insert_by_next_try r l) <-> x = r \/ In x l.
Proof.
  induction l as [|y l IH]; simpl.
  - intuition congruence.
  - destruct (next_try_leb r y); simpl; [|rewrite IH]; intuition congruence.
Qed.

Lemma order_by_next_try_In (x : Outgoing.OutgoingActivity)
  (l : list Outgoing.OutgoingActivity) :
  In x (order_by_next_try l) <-> In x l.
Proof.
  induction l as [|y l IH]; simpl; [tauto|].
  rewrite insert_by_next_try_In, IH. intuition congruence.
Qed.

Lemma insert_by_next_try_sorted (r : Outgoing.OutgoingActivity)
  (l : list Outgoing.OutgoingActivity) :
  StronglySorted (fun a b => next_try_leb a b = true) l ->
  StronglySorted (fun a b => next_try_leb a b = true)
                 (insert_by_next_try r l).
Proof.
  induction 1 as [|y l Hl IH Hy]; simpl.
  - constructor; constructor.
  - destruct (next_try_leb r y) eqn:E.
    + constructor; [constructor; assumption|].
      constructor; [exact E|].
      rewrite Forall_forall in *. intros z Hz.
      apply (next_try_leb_trans r y z E). now apply Hy.
    + constructor; [exact IH|].
      rewrite Forall_forall in *. intros z Hz.
      apply insert_by_next_try_In in Hz. destruct Hz as [->|Hz].
      * now apply next_try_leb_total.
      * now apply Hy.
Qed.

Lemma order_by_next_try_sorted (l : list Outgoing.OutgoingActivity) :
  StronglySorted (fun a b => next_try_leb a b = true) (order_by_next_try l).
Proof.
  induction l as [|y l IH]; simpl; [constructor|].
  now apply insert_by_next_try_sorted.
Qed.

(** The first row of the ordered rows is not after any of them. *)
Lemma order_by_next_try_head (l : list Outgoing.OutgoingActivity)
  (r x : Outgoing.OutgoingActivity) :
  hd_error (order_by_next_try l) = Some r -> In x l ->
  In r l /\ next_try_leb r x = true.
Proof.
  intros H Hx. pose proof (order_by_next_try_sorted l) as S.
  apply order_by_next_try_In in Hx.
  assert (Hr : In r (order_by_next_try l)).
  { destruct (order_by_next_try l); [discriminate|].
    injection H as <-. now left. }
  split; [now apply order_by_next_try_In|].
  destruct (order_by_next_try l) as [|h t]; [discriminate|].
  injection H as <-. inversion S as [|? ? _ Hh]; subst.
  destruct Hx as [<-|Hx].
  - unfold next_try_leb. destruct (Outgoing.next_try h); [|reflexivity].
    apply Z.leb_refl.
  - rewrite Forall_forall in Hh. now apply Hh.
Qed.

Lemma order_by_next_try_none (l : list Outgoing.OutgoingActivity) :
  hd_error (order_by_next_try l) = None <-> l = [].
Proof.
  split.
  - intros H. destruct l as [|x l]; [reflexivity|]. exfalso.
    assert (Hx : In x (order_by_next_try (x :: l)))
      by (apply order_by_next_try_In; now left).
    destruct (order_by_next_try (x :: l)); [destruct Hx|discriminate].
  - intros ->. reflexivity.
Qed.

(** C5: [fetch_next] returns a row of the queue that is not sent, not
    errored and whose [next_try] is not after [now], and no such row of the
    queue has a smaller [next_try]; it returns none exactly when the queue
    has no such row. *)
Theorem fetch_next_earliest_due :
  forall (now : datetime) (q : list Outgoing.OutgoingActivity),
    (forall r,
        fetch_next_outgoing_activity now q = Some r ->
        In r q /\ due now r
        /\ exists t,
            Outgoing.next_try r = Some t
            /\ forall r', In r' q -> due now r' ->
                          exists t', Outgoing.next_try r' = Some t' /\ t <= t')
    /\ (fetch_next_outgoing_activity now q = None
        <-> forall r, In r q -> ~ due now r).
Proof.
  intros now q. unfold fetch_next_outgoing_activity. split.
  - intros r H.
    assert (Hr : In r (filter (fun r => Sql.holds (fetch_next_where now r)) q)).
    { destruct (order_by_next_try _) as [|h t] eqn:E; [discriminate|].
      injection H as <-. apply order_by_next_try_In. rewrite E. now left. }
    apply filter_In in Hr. destruct Hr as [Hin Hd].
    apply fetch_next_where_due in Hd.
    split; [exact Hin|]. split; [exact Hd|].
    destruct Hd as (_ & _ & t & Ht & _). exists t. split; [exact Ht|].
    intros r' Hin' Hd'.
    assert (Hf : In r' (filter (fun r => Sql.holds (fetch_next_where now r)) q)).
    { apply filter_In. split; [exact Hin'|]. now apply fetch_next_where_due. }
    destruct (order_by_next_try_head _ r r' H Hf) as [_ Hle].
    destruct Hd' as (_ & _ & t' & Ht' & _). exists t'. split; [exact Ht'|].
    unfold next_try_leb in Hle. rewrite Ht, Ht' in Hle.
    now apply Z.leb_le.
  - rewrite order_by_next_try_none. split.
    + intros E r Hin Hd.
      assert (Hf : In r (filter (fun r => Sql.holds (fetch_next_where now r))
                                q)).
      { apply filter_In. split; [exact Hin|]. now apply fetch_next_where_due. }
      rewrite E in Hf. destruct Hf.
    + intros H. apply filter_none. intros r Hin.
      destruct (Sql.holds (fetch_next_where now r)) eqn:E; [|reflexivity].
      apply fetch_next_where_due in E. exfalso. now apply (H r).
Qed.

Lemma fetch_next_Some_due (now : datetime)
  (q : list Outgoing.OutgoingActivity) (r : Outgoing.OutgoingActivity) :
  fetch_next_outgoing_activity now q = Some r -> In r q /\ due now r.
Proof.
  unfold fetch_next_outgoing_activity. intros H.
  assert (Hr : In r (filter (fun r => Sql.holds (fetch_next_where now r)) q)).
  { destruct (order_by_next_try _) as [|h t] eqn:E; [discriminate|].
    injection H as <-. apply order_by_next_try_In. rewrite E. now left. }
  apply filter_In in Hr. destruct Hr as [Hin Hd].
  now apply fetch_next_where_due in Hd.
Qed.

(** ** The outgoing queue: [process] *)

Section OutgoingQueueFacts.

Variable MAX_RETRIES : Z.
Variable backoff : Z -> Z.
Variable describe_error : Delivery -> string.

Let process := process_next_outgoing_activity MAX_RETRIES backoff
                                              describe_error.

(** What a failed attempt does to the counters and flags. *)
Lemma process_failed (now : datetime) (d : Delivery)
  (r : Outgoing.OutgoingActivity) :
  delivered d = false ->
  Outgoing.tries (process now d r) = Outgoing.tries r + 1
  /\ Outgoing.is_sent (process now d r) = Outgoing.is_sent r
  /\ Outgoing.is_errored (process now d r)
     = (MAX_RETRIES <=? Outgoing.tries r + 1) || Outgoing.is_errored r.
Proof.
  intros Hd. unfold process, process_next_outgoing_activity.
  assert (E : forall x, Outgoing.tries (mark_failed MAX_RETRIES backoff
                                          describe_error now d x)
                        = Outgoing.tries x + 1
          /\ Outgoing.is_sent (mark_failed MAX_RETRIES backoff describe_error
                                           now d x) = Outgoing.is_sent x
          /\ Outgoing.is_errored (mark_failed MAX_RETRIES backoff
                                              describe_error now d x)
             = (MAX_RETRIES <=? Outgoing.tries x + 1)
               || Outgoing.is_errored x).
  { intros x. unfold mark_failed. cbn.
    destruct (MAX_RETRIES <=? Outgoing.tries x + 1); auto. }
  destruct d as [s b|]; [|apply E].
  cbn in Hd. rewrite Hd. apply E.
Qed.

Lemma process_all_failed (attempts : list (datetime * Delivery))
  (r : Outgoing.OutgoingActivity) :
  Forall (fun a => delivered (snd a) = false) attempts ->
  let r' := process_all MAX_RETRIES backoff describe_error attempts r in
  Outgoing.is_sent r' = Outgoing.is_sent r
  /\ (Outgoing.is_errored r = true
      \/ (attempts <> []
          /\ MAX_RETRIES
             <= Outgoing.tries r + Z.of_nat (List.length attempts)) ->
      Outgoing.is_errored r' = true).
Proof.
  intros H. revert r. induction H as [|a l Ha Hl IH]; intros r.
  - cbn. split; [reflexivity|]. intros [E|[N _]]; [exact E|congruence].
  - cbn [process_all fold_left].
    destruct (process_failed (fst a) (snd a) r Ha) as (T & S & E).
    specialize (IH (process (fst a) (snd a) r)).
    unfold process_all in IH. cbn zeta in IH. unfold process in *.
    destruct IH as [IS IE]. split; [congruence|].
    intros C. apply IE. rewrite E, T.
    destruct C as [C|[_ C]].
    + left. rewrite C. apply orb_true_r.
    + destruct l as [|b l'].
      * left. cbn in C. apply orb_true_iff. left. apply Z.leb_le. lia.
      * right. split; [discriminate|].
        cbn [List.length] in C |- *. lia.
Qed.

(** C2: after [MAX_RETRIES] failed attempts in a row, starting from a row
    that is not sent, the row has [is_errored = true] and [is_sent = false],
    and no later [fetch_next], at whatever time and on whatever queue,
    returns it. *)
Theorem errored_after_max_retries :
  forall (attempts : list (datetime * Delivery))
         (r : Outgoing.OutgoingActivity),
    0 < MAX_RETRIES ->
    0 <= Outgoing.tries r ->
    Outgoing.is_sent r = false ->
    Z.of_nat (List.length attempts) = MAX_RETRIES ->
    Forall (fun a => delivered (snd a) = false) attempts ->
    let r' := process_all MAX_RETRIES backoff describe_error attempts r in
    Outgoing.is_errored r' = true
    /\ Outgoing.is_sent r' = false
    /\ forall now q, fetch_next_outgoing_activity now q <> Some r'.
Proof.
  intros attempts r Hmax Htries Hsent Hlen Hfail r'.
  destruct (process_all_failed attempts r Hfail) as [S E].
  fold r' in S, E.
  assert (Err : Outgoing.is_errored r' = true).
  { apply E. right. split; [|lia].
    intros ->. cbn in Hlen. lia. }
  split; [exact Err|]. split; [congruence|].
  intros now q H. apply fetch_next_Some_due in H.
  destruct H as [_ (_ & F & _)]. congruence.
Qed.

(** C6: when the attempt on a row that [fetch_next] returned is answered
    with a 2xx status, the row ends with [is_sent = true], the status of the
    answer in [last_status_code], [error] NULL and [is_errored = false]. *)
Theorem process_2xx_marks_sent :
  forall (now now' : datetime) (q : list Outgoing.OutgoingActivity)
         (r : Outgoing.OutgoingActivity) (status : Z) (body : string),
    fetch_next_outgoing_activity now q = Some r ->
    is_2xx status = true ->
    let r' :=
      process_next_outgoing_activity MAX_RETRIES backoff describe_error
                                     now' (HttpResponse status body) r in
    Outgoing.is_sent r' = true
    /\ Outgoing.last_status_code r' = Some status
    /\ Outgoing.error r' = None
    /\ Outgoing.is_errored r' = false.
Proof.
  intros now now' q r status body Hf H2 r'.
  apply fetch_next_Some_due in Hf. destruct Hf as [_ (_ & E & _)].
  subst r'. unfold process_next_outgoing_activity. rewrite H2.
  cbn. auto.
Qed.

End OutgoingQueueFacts.

Lemma errored_after_max_retries_witness :
  let r' :=
    process_all Scenario.MAX_RETRIES Scenario.backoff Scenario.describe_error
                Scenario.three_failures Scenario.queued_activity in
  Outgoing.is_errored r' = true
  /\ Outgoing.is_sent r' = false
  /\ forall now q, fetch_next_outgoing_activity now q <> Some r'.
Proof.
  apply (errored_after_max_retries Scenario.MAX_RETRIES Scenario.backoff
           Scenario.describe_error Scenario.three_failures
           Scenario.queued_activity).
  - reflexivity.
  - discriminate.
  - reflexivity.
  - reflexivity.
  - repeat constructor.
Defined.

Lemma process_2xx_marks_sent_witness :
  let r' :=
    process_next_outgoing_activity Scenario.MAX_RETRIES Scenario.backoff
      Scenario.describe_error 10 (HttpResponse 204 "")
      Scenario.queued_activity in
  Outgoing.is_sent r' = true
  /\ Outgoing.last_status_code r' = Some 204
  /\ Outgoing.error r' = None
  /\ Outgoing.is_errored r' = false.
Proof.
  apply (process_2xx_marks_sent Scenario.MAX_RETRIES Scenario.backoff
           Scenario.describe_error 5 10 [Scenario.queued_activity]
           Scenario.queued_activity 204 "").
  - reflexivity.
  - reflexivity.
Defined.

(** ** Unique protocol identifiers and re-ingestion *)





Lemma outbox_insert_Ok (r : Outbox.OutboxObject)
  (t t' : list Outbox.OutboxObject) :
  outbox_insert r t = Ok t' ->
  t' = t ++ [r] /\ ~ In (Outbox.ap_id r) (map Outbox.ap_id t).
Proof.
  unfold outbox_insert.
  destruct (existsb _ t) eqn:E; [discriminate|].
  intros H. injection H as <-. split; [reflexivity|].
  intros Hin. apply in_map_iff in Hin. destruct Hin as [x [Ex Hx]].
  assert (existsb (fun x => String.eqb (Outbox.ap_id x) (Outbox.ap_id r)) t
          = true).
  { apply existsb_exists. exists x. split; [exact Hx|].
    rewrite Ex. apply String.eqb_refl. }
  congruence.
Qed.

Lemma inbox_insert_not_in (r : Inbox.InboxObject)
  (t : list Inbox.InboxObject) :
  ~ In (Inbox.ap_id r) (map Inbox.ap_id t) -> inbox_insert r t = Ok (t ++ [r]).
Proof.
  intros H. unfold inbox_insert.
  destruct (existsb _ t) eqn:E; [|reflexivity].
  exfalso. apply H. apply existsb_exists in E. destruct E as [x [Hx E]].
  apply String.eqb_eq in E. rewrite <- E. now apply in_map.
Qed.






Section InboxEngineFacts.

Variable requires_authentication : string -> bool.
Variable manually_approves_followers : bool.
Variable accept_public_id : Z -> string.
Variable accept_ap_id : Z -> string.
Variable inbox_url : Z -> string.



































End InboxEngineFacts.

Section InboxIdempotence.

Variable requires_authentication : string -> bool.
Variable manually_approves_followers : bool.
Variable accept_public_id : Z -> string.
Variable accept_ap_id : Z -> string.
Variable inbox_url : Z -> string.


End InboxIdempotence.


(** A vote in a poll: the first ingest records it and counts it; the same
    vote again changes nothing; another choice by the same actor is
    refused. *)
Example vote_then_replay :
  Fixture.ingest_now 50 Fixture.vote_activity 7 true Fixture.poll_store
  = Stored Fixture.vote_row Fixture.after_vote_store
  /\ Fixture.ingest_now 60 Fixture.vote_activity 7 true
                        Fixture.after_vote_store
     = Stored Fixture.vote_row Fixture.after_vote_store
  /\ Fixture.ingest_now 60 Fixture.other_vote 7 true
                        Fixture.after_vote_store
     = Rejected "vote already recorded".
Proof. split; [reflexivity|split; reflexivity]. Qed.

(** A Follow after the Like: the first ingest makes the Follower row,
    accepts it, queues the Accept and notifies; the same Follow again
    changes nothing. *)
Example follow_then_replay :
  Fixture.ingest_now 70 Fixture.follow_activity 7 true
                     Fixture.after_like_store
  = Stored Fixture.follow_row Fixture.after_follow_store
  /\ Fixture.ingest_now 80 Fixture.follow_activity 7 true
                        Fixture.after_follow_store
     = Stored Fixture.follow_row Fixture.after_follow_store
  /\ Fixture.ingest_now 90 Fixture.like_again 8 true
                        Fixture.after_follow_store
     = Stored Scenario.like_row Fixture.after_follow_store.
Proof. split; [reflexivity|split; reflexivity]. Qed.

(** ** Delete of a local reply *)

Lemma ap_id_injective (t : list Outbox.OutboxObject)
  (a b : Outbox.OutboxObject) :
  NoDup (map Outbox.ap_id t) -> In a t -> In b t ->
  Outbox.ap_id a = Outbox.ap_id b -> a = b.
Proof.
  induction t as [|y t IH]; intros N Ha Hb E; [destruct Ha|].
  cbn [map] in N. inversion N as [|? ? Hy Nt]; subst.
  destruct Ha as [->|Ha], Hb as [->|Hb].
  - reflexivity.
  - exfalso. apply Hy. rewrite E. now apply in_map.
  - exfalso. apply Hy. rewrite <- E. now apply in_map.
  - now apply IH.
Qed.

(** Tombstoning one live reply takes one off the count of live replies. *)
Lemma tombstone_count (parent : string) (t : list Outbox.OutboxObject)
  (o : Outbox.OutboxObject) :
  NoDup (map Outbox.ap_id t) -> In o t ->
  is_live_outbox_reply parent o = true ->
  S (List.length
       (filter (is_live_outbox_reply parent)
          (map (fun y => if String.eqb (Outbox.ap_id y) (Outbox.ap_id o)
                         then Outbox.set_is_deleted true y else y) t)))
  = List.length (filter (is_live_outbox_reply parent) t).
Proof.
  induction t as [|y t IH]; intros N Hin L; [destruct Hin|].
  cbn [map] in N. inversion N as [|? ? Hy Nt]; subst.
  cbn [map filter]. destruct Hin as [->|Hin].
  - rewrite String.eqb_refl, L.
    assert (D : is_live_outbox_reply parent (Outbox.set_is_deleted true o)
                = false).
    { unfold is_live_outbox_reply. cbn.
      destruct (Outbox.in_reply_to o); [apply andb_false_r|reflexivity]. }
    rewrite D. cbn [List.length]. f_equal. f_equal. f_equal.
    rewrite <- (map_id t) at 2. apply map_ext_in. intros z Hz.
    destruct (String.eqb (Outbox.ap_id z) (Outbox.ap_id o)) eqn:E;
      [|reflexivity].
    apply String.eqb_eq in E. exfalso. apply Hy. rewrite <- E.
    now apply in_map.
  - assert (E : String.eqb (Outbox.ap_id y) (Outbox.ap_id o) = false).
    { apply String.eqb_neq. intros E. apply Hy. rewrite E. now apply in_map. }
    rewrite E. destruct (is_live_outbox_reply parent y).
    + cbn [List.length]. f_equal. now apply IH.
    + now apply IH.
Qed.

Lemma queue_deliveries_boxes (now : datetime) (i : Z)
  (recipients : list string) (db : DB) :
  inbox (queue_deliveries now i recipients db) = inbox db
  /\ outbox (queue_deliveries now i recipients db) = outbox db.
Proof.
  unfold queue_deliveries. generalize (Sql.distinct recipients). intros l.
  revert db. induction l as [|x l IH]; intros db; cbn [fold_left];
    [split; reflexivity|].
  destruct (IH (with_outgoing_activity
                  (outgoing_activity db
                   ++ [new_OutgoingActivity
                         (fresh_id (map Outgoing.id (outgoing_activity db)))
                         now x (Some i) None None]) db)) as [A B].
  rewrite A, B. split; reflexivity.
Qed.

Lemma refresh_inbox_parent (parent : string) (db : DB)
  (P : Inbox.InboxObject) :
  In P (inbox (refresh_replies_count parent db)) ->
  Inbox.ap_id P = parent ->
  Inbox.replies_count P = live_replies db parent.
Proof.
  unfold refresh_replies_count, update_inbox. cbn [inbox with_inbox].
  intros Hin E. apply in_map_iff in Hin. destruct Hin as [r [Hr _]].
  cbn [inbox update_outbox with_outbox] in Hr.
  destruct (String.eqb (Inbox.ap_id r) parent) eqn:Er.
  - subst P. reflexivity.
  - subst P. apply String.eqb_neq in Er. contradiction.
Qed.

Lemma refresh_outbox_parent (parent : string) (db : DB)
  (P : Outbox.OutboxObject) :
  In P (outbox (refresh_replies_count parent db)) ->
  Outbox.ap_id P = parent ->
  Outbox.replies_count P = live_replies db parent.
Proof.
  unfold refresh_replies_count, update_inbox, update_outbox.
  cbn [outbox with_inbox with_outbox].
  intros Hin E. apply in_map_iff in Hin. destruct Hin as [r [Hr _]].
  destruct (String.eqb (Outbox.ap_id r) parent) eqn:Er.
  - subst P. reflexivity.
  - subst P. apply String.eqb_neq in Er. contradiction.
Qed.

(** C1, as the engine has it: deleting a live local reply sets the
    [replies_count] of the replied-to object, in the inbox or in the outbox,
    to the number of its live stored replies before the delete less one,
    whatever counters the deleted reply carries itself; when the counter was
    in step with the rows before the delete (it was [n], the number of live
    replies), it is [n - 1] after. *)
Theorem send_delete_refreshes_replies_count :
  forall (now : datetime) (public_id delete_ap_id : string)
         (recipients : list string) (db db' : DB) (o : Outbox.OutboxObject)
         (parent : string),
    NoDup (map Outbox.ap_id (outbox db)) ->
    In o (outbox db) ->
    Outbox.is_deleted o = false ->
    Outbox.in_reply_to o = Some parent ->
    send_delete now (Outbox.ap_id o) public_id delete_ap_id recipients db
    = Ok db' ->
    (forall P, In P (inbox db') -> Inbox.ap_id P = parent ->
               Inbox.replies_count P = live_replies db parent - 1)
    /\ (forall P, In P (outbox db') -> Outbox.ap_id P = parent ->
                  Outbox.ap_id P <> delete_ap_id ->
                  Outbox.replies_count P = live_replies db parent - 1)
    /\ (forall n P0 P,
           In P0 (inbox db) -> Inbox.ap_id P0 = parent ->
           Inbox.replies_count P0 = n -> n = live_replies db parent ->
           In P (inbox db') -> Inbox.ap_id P = parent ->
           Inbox.replies_count P = n - 1).
Proof.
  intros now public_id delete_ap_id recipients db db' o parent N Hin Hlive
         Hreply H.
  unfold send_delete in H.
  destruct (find _ (outbox db)) as [o'|] eqn:F; [|discriminate].
  apply find_some in F. destruct F as [Hin' F].
  apply andb_true_iff in F. destruct F as [F _]. apply String.eqb_eq in F.
  assert (o' = o) by (now apply (ap_id_injective (outbox db))). subst o'.
  rewrite Hreply in H.
  set (db1 := update_outbox (Outbox.ap_id o) (Outbox.set_is_deleted true) db)
    in H.
  assert (L : live_replies db1 parent = live_replies db parent - 1).
  { unfold live_replies, db1, update_outbox. cbn [outbox inbox with_outbox].
    assert (Lo : is_live_outbox_reply parent o = true).
    { unfold is_live_outbox_reply.
      rewrite Hreply, Hlive, String.eqb_refl. reflexivity. }
    pose proof (tombstone_count parent (outbox db) o N Hin Lo). lia. }
  destruct (outbox_insert _ _) as [t|e] eqn:I; [|discriminate].
  injection H as <-. apply outbox_insert_Ok in I. destruct I as [-> _].
  match goal with
  | |- context [queue_deliveries ?a ?b ?c ?d] =>
      destruct (queue_deliveries_boxes a b c d) as [EI EO];
      set (final := queue_deliveries a b c d) in *
  end.
  cbn [inbox outbox with_outbox] in EI, EO.
  assert (A : forall P, In P (inbox final) -> Inbox.ap_id P = parent ->
                        Inbox.replies_count P = live_replies db parent - 1).
  { intros P HP EP. rewrite EI in HP.
    rewrite <- L. now apply refresh_inbox_parent. }
  split; [exact A|]. split.
  - intros P HP EP NP. rewrite EO in HP.
    apply in_app_iff in HP. destruct HP as [HP|[HP|[]]].
    + rewrite <- L. now apply refresh_outbox_parent.
    + subst P. cbn in NP. congruence.
  - intros n P0 P _ _ _ -> HP EP. now apply A.
Qed.

Lemma send_delete_refreshes_replies_count_witness :
  Scenario.delete_reply_2 = Ok Scenario.after_delete
  /\ live_replies Scenario.before_delete "https://example.com/note/p" = 2
  /\ forall P,
      In P (inbox Scenario.after_delete) ->
      Inbox.ap_id P = "https://example.com/note/p" ->
      Inbox.replies_count P = 2 - 1.
Proof.
  split; [reflexivity|]. split; [reflexivity|].
  apply (send_delete_refreshes_replies_count 30 "d1"
           "https://blog.example/o/d1" ["https://example.com/inbox"]
           Scenario.before_delete Scenario.after_delete Scenario.reply_2
           "https://example.com/note/p").
  - repeat (constructor; [cbn; intuition discriminate|]). constructor.
  - cbn. auto.
  - reflexivity.
  - reflexivity.
  - reflexivity.
Defined.

(** C1 as it is worded fails on the scenario of the repository's own
    test: the replied note has [replies_count = 5] before the delete of one
    of its two replies and 1 after, not 4. *)
Lemma send_delete_does_not_decrement :
  ~ (forall (db db' : DB) (o : Outbox.OutboxObject) (parent : string)
            (P0 P : Inbox.InboxObject) (n : Z),
        In o (outbox db) ->
        Outbox.in_reply_to o = Some parent ->
        send_delete 30 (Outbox.ap_id o) "d1" "https://blog.example/o/d1"
                    ["https://example.com/inbox"] db = Ok db' ->
        In P0 (inbox db) -> Inbox.ap_id P0 = parent ->
        Inbox.replies_count P0 = n ->
        In P (inbox db') -> Inbox.ap_id P = parent ->
        Inbox.replies_count P = n - 1).
Proof.
  intros H.
  specialize (H Scenario.before_delete Scenario.after_delete Scenario.reply_2
                "https://example.com/note/p" Scenario.replied_note
                (Inbox.set_replies_count 1 Scenario.replied_note) 5).
  cbn [Inbox.replies_count Inbox.set_replies_count] in H.
  assert (E : 1 = 5 - 1); [|discriminate E].
  apply H; try reflexivity; cbn; auto.
Qed.

(** ** The rules on small tables *)

Section PruneOnlyUnflagged.

Variable BASE_URL : string.
Variable INBOX_RETENTION_DAYS : Z.

(** A row the inbox delete takes carries none of the six flags and was
    published before the cutoff. *)
Lemma prune_deletes_only_unflagged_old (now : datetime) (db : DB)
  (r : Inbox.InboxObject) :
  In r (inbox db) ->
  ~ In r (_prune_old_inbox_objects BASE_URL INBOX_RETENTION_DAYS now db) ->
  Inbox.is_bookmarked r = false
  /\ Inbox.liked_via_outbox_object_ap_id r = None
  /\ Inbox.announced_via_outbox_object_ap_id r = None
  /\ Inbox.has_local_mention r = false
  /\ ~ (Inbox.visibility r = DIRECT /\ Inbox.ap_type r = "Note")
  /\ Inbox.ap_type r <> "Move"
  /\ Inbox.ap_published_at r < now - timedelta_days INBOX_RETENTION_DAYS.
Proof.
  intros Hin Hout.
  assert (H : Sql.holds (inbox_where BASE_URL INBOX_RETENTION_DAYS now
                                     (outbox db) r) = true).
  { apply (deleted_iff (inbox_where BASE_URL INBOX_RETENTION_DAYS now
                                    (outbox db)) (inbox db) r).
    split; assumption. }
  rewrite inbox_where_holds in H.
  repeat (apply andb_true_iff in H; destruct H as [H ?]).
  repeat split.
  - now apply negb_true_iff.
  - destruct (Inbox.liked_via_outbox_object_ap_id r);
      [discriminate|reflexivity].
  - destruct (Inbox.announced_via_outbox_object_ap_id r);
      [discriminate|reflexivity].
  - now apply negb_true_iff.
  - intros [V T].
    match goal with
    | X : negb (VisibilityEnum_eqb _ _ && _) = true |- _ =>
        rewrite V, T in X; discriminate X
    end.
  - intros T.
    match goal with
    | X : negb (String.eqb _ "Move") = true |- _ =>
        rewrite T in X; discriminate X
    end.
  - now apply Z.ltb_lt.
Qed.

End PruneOnlyUnflagged.

(** Votes of actor 7 on poll 3. *)
Example one_of_second_vote_rejected :
  poll_answer_insert (Poll.mk 0 20 3 "oneOf" 12 7 "B")
                     [Poll.mk 1 10 3 "oneOf" 11 7 "A"] = None.
Proof. reflexivity. Qed.

Example any_of_second_answer_accepted :
  poll_answer_insert (Poll.mk 0 20 3 "anyOf" 12 7 "B")
                     [Poll.mk 1 10 3 "anyOf" 11 7 "A"]
  = Some [Poll.mk 1 10 3 "anyOf" 11 7 "A"; Poll.mk 2 20 3 "anyOf" 12 7 "B"].
Proof. reflexivity. Qed.

Example any_of_same_answer_rejected :
  poll_answer_insert (Poll.mk 0 20 3 "anyOf" 12 7 "A")
                     [Poll.mk 1 10 3 "anyOf" 11 7 "A"] = None.
Proof. reflexivity. Qed.

(** The queue of the errored test: nothing is due once the row is errored. *)
Example errored_row_not_fetched :
  fetch_next_outgoing_activity 1000000000
    [process_all Scenario.MAX_RETRIES Scenario.backoff Scenario.describe_error
                 Scenario.three_failures Scenario.queued_activity] = None.
Proof. reflexivity. Qed.

(** An empty queue has no next activity. *)
Example no_next_activity : fetch_next_outgoing_activity 0 [] = None.
Proof. reflexivity. Qed.

(** A row published 100 days ago and received today goes; a row received
    100 days ago and published today stays (window of 15 days). *)
Example old_publication_recent_receipt :
  let now := timedelta_days 100 in
  let r := Inbox.set_created_at now
             (Scenario.inbox_note 1 "https://remote.example/note/1" 0 None
                                  None 0) in
  _prune_old_inbox_objects Scenario.BASE_URL 15 now
    (mkDB [] [] [r] [] [] []) = [].
Proof. reflexivity. Qed.

Example recent_publication_old_receipt :
  let now := timedelta_days 100 in
  let r := Inbox.set_created_at 0
             (Scenario.inbox_note 1 "https://remote.example/note/1" now None
                                  None 0) in
  _prune_old_inbox_objects Scenario.BASE_URL 15 now
    (mkDB [] [] [r] [] [] []) = [r].
Proof. reflexivity. Qed.

(** * Further properties of the sources *)

(** ** The pattern [f"{BASE_URL}%"] *)

Lemma like_match_percent (pat s : string) :
  Sql.like_match (String "%"%char pat) s
  = Sql.like_match pat s
    || match s with
       | EmptyString => false
       | String _ s' => Sql.like_match (String "%"%char pat) s'
       end.
Proof. destruct s; reflexivity. Qed.

Lemma like_match_any (s : string) : Sql.like_match "%" s = true.
Proof.
  induction s as [|c s IH]; [reflexivity|].
  rewrite like_match_percent. rewrite IH. apply orb_true_r.
Qed.

Lemma eq_nocase_refl (c : ascii) : Sql.eq_nocase c c = true.
Proof. unfold Sql.eq_nocase. apply Ascii.eqb_refl. Qed.

(** Whatever characters the prefix holds, wildcards among them, the pattern
    made of it and [%] matches every string that starts with it. *)
Lemma like_match_prefix (p s : string) :
  Sql.like_match (p ++ "%") (p ++ s) = true.
Proof.
  induction p as [|c p IH]; cbn [String.append].
  - apply like_match_any.
  - destruct (Ascii.eqb c "%"%char) eqn:E.
    + apply Ascii.eqb_eq in E. subst c.
      rewrite like_match_percent. cbn match.
      rewrite (like_match_percent (p ++ "%") (p ++ s)), IH.
      apply orb_true_r.
    + cbn [Sql.like_match]. rewrite E, eq_nocase_refl, IH.
      rewrite orb_true_r. reflexivity.
Qed.

Section MorePruning.

Variable BASE_URL : string.

Lemma keep_outbox_activity_holds (r : Inbox.InboxObject) :
  Sql.holds (keep_outbox_activity BASE_URL r)
  = match Inbox.activity_object_ap_id r with
    | None => true
    | Some a => negb (Sql.like_match (base_url_pattern BASE_URL) a)
    end.
Proof.
  unfold keep_outbox_activity.
  destruct (Inbox.activity_object_ap_id r) as [a|]; [|reflexivity].
  cbn. destruct (Sql.like_match (base_url_pattern BASE_URL) a); reflexivity.
Qed.

(** X1: an inbox row whose [activity_object_ap_id] starts with [BASE_URL]
    (a Like, Announce or Follow of something local) is never deleted by the
    pruner, whatever its age and flags and whatever characters [BASE_URL]
    holds. *)
Theorem prune_keeps_activities_on_local_objects :
  forall (INBOX_RETENTION_DAYS : Z) (now : datetime) (db : DB)
         (r : Inbox.InboxObject) (rest : string),
    Inbox.activity_object_ap_id r = Some (BASE_URL ++ rest)%string ->
    In r (inbox db) ->
    In r (_prune_old_inbox_objects BASE_URL INBOX_RETENTION_DAYS now db).
Proof.
  intros D now db r rest Ha Hin. apply delete_where_In.
  split; [exact Hin|].
  rewrite inbox_where_holds, keep_outbox_activity_holds, Ha.
  unfold base_url_pattern. rewrite like_match_prefix. cbn [negb].
  now rewrite !andb_false_r.
Qed.

(** X2: the inbox delete takes a row exactly when it is not bookmarked, not
    liked, not announced, has no local mention, has an
    [activity_object_ap_id] that is NULL or does not match [BASE_URL%], is
    not a direct Note, is not a Move, and was published before the cutoff.
    Neither the row's conversation nor any row of the outbox enters. *)
Theorem inbox_delete_iff :
  forall (INBOX_RETENTION_DAYS : Z) (now : datetime) (db : DB)
         (r : Inbox.InboxObject),
    In r (inbox db)
    /\ ~ In r (_prune_old_inbox_objects BASE_URL INBOX_RETENTION_DAYS now db)
    <-> In r (inbox db)
        /\ Inbox.is_bookmarked r = false
        /\ Inbox.liked_via_outbox_object_ap_id r = None
        /\ Inbox.announced_via_outbox_object_ap_id r = None
        /\ Inbox.has_local_mention r = false
        /\ match Inbox.activity_object_ap_id r with
           | None => True
           | Some a => Sql.like_match (BASE_URL ++ "%") a = false
           end
        /\ ~ (Inbox.visibility r = DIRECT /\ Inbox.ap_type r = "Note")
        /\ Inbox.ap_type r <> "Move"
        /\ Inbox.ap_published_at r
           < now - timedelta_days INBOX_RETENTION_DAYS.
Proof.
  intros D now db r. unfold _prune_old_inbox_objects.
  rewrite deleted_iff, inbox_where_holds, keep_outbox_activity_holds.
  unfold base_url_pattern, cutoff.
  rewrite !andb_true_iff, !negb_true_iff, Z.ltb_lt, String.eqb_neq.
  assert (V : VisibilityEnum_eqb (Inbox.visibility r) DIRECT
              && String.eqb (Inbox.ap_type r) "Note" = false
              <-> ~ (Inbox.visibility r = DIRECT
                     /\ Inbox.ap_type r = "Note")).
  { rewrite andb_false_iff, String.eqb_neq. split.
    - intros [H|H] [V T]; [rewrite V in H; discriminate|contradiction].
    - intros H. destruct (Inbox.visibility r); cbn; auto. }
  rewrite V.
  assert (A : match Inbox.activity_object_ap_id r with
              | Some a => negb (Sql.like_match (BASE_URL ++ "%") a)
              | None => true
              end = true
              <-> match Inbox.activity_object_ap_id r with
                  | None => True
                  | Some a => Sql.like_match (BASE_URL ++ "%") a = false
                  end).
  { destruct (Inbox.activity_object_ap_id r);
      [apply negb_true_iff|tauto]. }
  rewrite A.
  destruct (Inbox.liked_via_outbox_object_ap_id r),
    (Inbox.announced_via_outbox_object_ap_id r);
    intuition congruence.
Qed.

End MorePruning.

Lemma prune_keeps_activities_on_local_objects_witness :
  In Fixture.old_follow
     (_prune_old_inbox_objects Scenario.BASE_URL 15 (timedelta_days 100)
                               Fixture.follow_db).
Proof.
  apply (prune_keeps_activities_on_local_objects Scenario.BASE_URL 15
           (timedelta_days 100) Fixture.follow_db Fixture.old_follow "").
  - reflexivity.
  - cbn. auto.
Defined.

(** ** Pruning again *)

Lemma filter_subsumed {A} (f g : A -> bool) (l : list A) :
  (forall x, f x = true -> g x = true) ->
  filter f (filter g l) = filter f l.
Proof.
  intros H. induction l as [|x l IH]; simpl; [reflexivity|].
  destruct (g x) eqn:G; simpl.
  - now rewrite IH.
  - destruct (f x) eqn:F; [|exact IH].
    apply H in F. congruence.
Qed.

Lemma delete_where_subsumed {R} (c1 c2 : R -> Sql.tri) (t : list R) :
  (forall r, Sql.holds (c1 r) = true -> Sql.holds (c2 r) = true) ->
  Sql.delete_where c2 (Sql.delete_where c1 t) = Sql.delete_where c2 t.
Proof.
  intros H. unfold Sql.delete_where. apply filter_subsumed.
  intros r F. apply negb_true_iff in F. apply negb_true_iff.
  destruct (Sql.holds (c1 r)) eqn:E; [|reflexivity].
  apply H in E. congruence.
Qed.

Section PruneTwice.

Variable BASE_URL : string.

(** X3: a second run of [prune_old_data] whose three cutoffs are not before
    those of a first run leaves the database as if only the second had run;
    in particular a run repeated at the same clock readings changes nothing
    more.  The outbox, the votes and the notifications are never touched. *)
Theorem prune_old_data_twice :
  forall (d d' : Z) (t1 t2 t3 t1' t2' t3' : datetime) (db : DB),
    cutoff d t1 <= cutoff d' t1' ->
    cutoff d t2 <= cutoff d' t2' ->
    cutoff d t3 <= cutoff d' t3' ->
    prune_old_data BASE_URL d' t1' t2' t3'
                   (prune_old_data BASE_URL d t1 t2 t3 db)
    = prune_old_data BASE_URL d' t1' t2' t3' db
    /\ outbox (prune_old_data BASE_URL d t1 t2 t3 db) = outbox db
    /\ poll_answer (prune_old_data BASE_URL d t1 t2 t3 db) = poll_answer db
    /\ notifications (prune_old_data BASE_URL d t1 t2 t3 db)
       = notifications db.
Proof.
  intros d d' t1 t2 t3 t1' t2' t3' db H1 H2 H3.
  split; [|repeat split].
  unfold prune_old_data, with_inbox, with_incoming_activity,
    with_outgoing_activity, _prune_old_inbox_objects,
    _prune_old_incoming_activities, _prune_old_outgoing_activities.
  cbn [incoming_activity outgoing_activity inbox outbox poll_answer
       notifications].
  f_equal.
  - apply delete_where_subsumed. intros r H.
    apply incoming_where_holds in H. apply incoming_where_holds.
    destruct H. split; [lia|assumption].
  - apply delete_where_subsumed. intros r H.
    apply outgoing_where_holds in H. apply outgoing_where_holds.
    destruct H. split; [lia|assumption].
  - apply delete_where_subsumed. intros r H.
    rewrite inbox_where_holds in H |- *.
    apply andb_true_iff in H. destruct H as [H L].
    rewrite H. cbn [andb]. apply Z.ltb_lt in L. apply Z.ltb_lt. lia.
Qed.

(** Each value of the subquery comes from the outbox. *)
Lemma distinct_In_iff (l : list string) (x : string) :
  In x (Sql.distinct l) <-> In x l.
Proof.
  split; [apply distinct_In|].
  induction l as [|y l IH]; simpl; [tauto|].
  intros [H|H]; [now left|].
  destruct (String.eqb y x) eqn:E.
  - left. now apply String.eqb_eq.
  - right. apply filter_In. split; [now apply IH|]. now rewrite E.
Qed.

Lemma distinct_NoDup (l : list string) : NoDup (Sql.distinct l).
Proof.
  induction l as [|y l IH]; simpl; constructor.
  - intros H. apply filter_In in H. destruct H as [_ H].
    rewrite String.eqb_refl in H. discriminate.
  - now apply NoDup_filter.
Qed.

(** X4: the subquery [outbox_conversation] yields, each exactly once, the
    conversations of outbox rows that are not NULL and do not match
    [BASE_URL%]; so no conversation that starts with [BASE_URL] is in it. *)
Theorem outbox_conversation_values :
  forall (ob : list Outbox.OutboxObject),
    NoDup (outbox_conversation BASE_URL ob)
    /\ (forall c,
           In c (outbox_conversation BASE_URL ob)
           <-> exists o,
                 In o ob /\ Outbox.conversation o = Some c
                 /\ Sql.like_match (BASE_URL ++ "%") c = false)
    /\ (forall rest,
           ~ In (BASE_URL ++ rest)%string (outbox_conversation BASE_URL ob)).
Proof.
  intros ob.
  assert (M : forall c,
             In c (outbox_conversation BASE_URL ob)
             <-> exists o,
                   In o ob /\ Outbox.conversation o = Some c
                   /\ Sql.like_match (BASE_URL ++ "%") c = false).
  { intros c. unfold outbox_conversation.
    rewrite distinct_In_iff, in_flat_map. split.
    - intros [o [Ho H]]. exists o. split; [exact Ho|].
      destruct (Outbox.conversation o) as [c'|]; cbn in H; [|tauto].
      unfold base_url_pattern in H.
      destruct (Sql.like_match (BASE_URL ++ "%") c') eqn:E; cbn in H;
        [tauto|].
      destruct H as [->|[]]. auto.
    - intros [o (Ho & Hc & Hl)]. exists o. split; [exact Ho|].
      rewrite Hc. cbn. unfold base_url_pattern. rewrite Hl. cbn. auto. }
  split; [apply distinct_NoDup|]. split; [exact M|].
  intros rest H. apply M in H. destruct H as [o (_ & _ & H)].
  rewrite like_match_prefix in H. discriminate.
Qed.

End PruneTwice.

Lemma prune_old_data_twice_witness :
  prune_old_data Scenario.BASE_URL 15 (timedelta_days 60) (timedelta_days 61)
                 (timedelta_days 62)
    (prune_old_data Scenario.BASE_URL 30 (timedelta_days 50)
                    (timedelta_days 50) (timedelta_days 50) Fixture.aged_db)
  = prune_old_data Scenario.BASE_URL 15 (timedelta_days 60)
                   (timedelta_days 61) (timedelta_days 62) Fixture.aged_db.
Proof.
  apply (prune_old_data_twice Scenario.BASE_URL 30 15
           (timedelta_days 50) (timedelta_days 50) (timedelta_days 50)
           (timedelta_days 60) (timedelta_days 61) (timedelta_days 62)
           Fixture.aged_db); discriminate.
Defined.

(** ** Tables with unique constraints *)

Section TableFacts.

Variable R : Type.
Variable clash : R -> R -> bool.
Variable set_id : Z -> R -> R.
Variable get_id : R -> Z.

Hypothesis clash_sym : forall a b, clash a b = clash b a.
Hypothesis clash_set_id : forall i a b, clash b (set_id i a) = clash b a.

Lemma table_insert_refused (r : R) (t : list R) :
  table_insert R clash set_id get_id r t = None
  <-> exists x, In x t /\ clash r x = true.
Proof.
  unfold table_insert. rewrite <- existsb_exists.
  destruct (existsb (clash r) t); split; congruence.
Qed.

Lemma table_no_clash (t : list R) :
  table R clash set_id get_id t ->
  ForallOrdPairs (fun a b => clash a b = false) t.
Proof.
  induction 1 as [|r t t' Ht IH Hins]; [constructor|].
  unfold table_insert in Hins.
  destruct (existsb (clash r) t) eqn:E; [discriminate|].
  injection Hins as <-. apply ForallOrdPairs_snoc; [exact IH|].
  apply Forall_forall. intros b Hb. rewrite clash_set_id, clash_sym.
  destruct (clash r b) eqn:C; [|reflexivity].
  assert (existsb (clash r) t = true) by (apply existsb_exists; eauto).
  congruence.
Qed.

(** A column, or tuple of columns, on which equal values make two rows
    clash has pairwise distinct values in every table. *)
Lemma table_unique_key {K} (key : R -> K) (t : list R) :
  (forall a b, key a = key b -> clash a b = true) ->
  table R clash set_id get_id t -> NoDup (map key t).
Proof.
  intros Hk Ht. apply table_no_clash in Ht.
  induction Ht as [|a l Ha Hl IH]; cbn [map]; constructor; [|exact IH].
  intros Hin. apply in_map_iff in Hin. destruct Hin as [b [E Hb]].
  rewrite Forall_forall in Ha. specialize (Ha b Hb).
  rewrite (Hk a b (eq_sym E)) in Ha. discriminate.
Qed.

End TableFacts.

(** X5: the tables [follower] and [following] hold at most one row per
    [actor_id] and at most one per [ap_actor_id]; an insert is refused
    exactly when a row with the same [actor_id] or the same [ap_actor_id]
    is there. *)
Theorem follower_following_unique :
  (forall t,
      table Followers.Follower Followers.clash Followers.set_id Followers.id
            t ->
      NoDup (map Followers.actor_id t)
      /\ NoDup (map Followers.ap_actor_id t))
  /\ (forall r t,
         Followers.insert r t = None
         <-> exists x,
               In x t
               /\ (Followers.actor_id x = Followers.actor_id r
                   \/ Followers.ap_actor_id x = Followers.ap_actor_id r))
  /\ (forall t,
         table Followings.Following Followings.clash Followings.set_id
               Followings.id t ->
         NoDup (map Followings.actor_id t)
         /\ NoDup (map Followings.ap_actor_id t))
  /\ (forall r t,
         Followings.insert r t = None
         <-> exists x,
               In x t
               /\ (Followings.actor_id x = Followings.actor_id r
                   \/ Followings.ap_actor_id x = Followings.ap_actor_id r)).
Proof.
  assert (S1 : forall a b, Followers.clash a b = Followers.clash b a).
  { intros a b. unfold Followers.clash.
    now rewrite Z.eqb_sym, String.eqb_sym. }
  assert (S2 : forall a b, Followings.clash a b = Followings.clash b a).
  { intros a b. unfold Followings.clash.
    now rewrite Z.eqb_sym, String.eqb_sym. }
  assert (I1 : forall i a b,
             Followers.clash b (Followers.set_id i a) = Followers.clash b a)
    by reflexivity.
  assert (I2 : forall i a b,
             Followings.clash b (Followings.set_id i a)
             = Followings.clash b a)
    by reflexivity.
  split; [|split; [|split]].
  - intros t Ht. split.
    + apply (table_unique_key _ _ _ Followers.id S1 I1 Followers.actor_id t); [|exact Ht].
      intros a b E. unfold Followers.clash. rewrite E, Z.eqb_refl.
      reflexivity.
    + apply (table_unique_key _ _ _ Followers.id S1 I1 Followers.ap_actor_id t); [|exact Ht].
      intros a b E. unfold Followers.clash. rewrite E, String.eqb_refl.
      apply orb_true_r.
  - intros r t. unfold Followers.insert. rewrite table_insert_refused.
    split; intros [x [Hx H]]; exists x; (split; [exact Hx|]).
    + unfold Followers.clash in H. apply orb_true_iff in H.
      destruct H as [H|H]; [left; apply Z.eqb_eq in H
                           |right; apply String.eqb_eq in H]; congruence.
    + unfold Followers.clash. apply orb_true_iff.
      destruct H as [H|H]; [left; apply Z.eqb_eq
                           |right; apply String.eqb_eq]; congruence.
  - intros t Ht. split.
    + apply (table_unique_key _ _ _ Followings.id S2 I2 Followings.actor_id t); [|exact Ht].
      intros a b E. unfold Followings.clash. rewrite E, Z.eqb_refl.
      reflexivity.
    + apply (table_unique_key _ _ _ Followings.id S2 I2 Followings.ap_actor_id t); [|exact Ht].
      intros a b E. unfold Followings.clash. rewrite E, String.eqb_refl.
      apply orb_true_r.
  - intros r t. unfold Followings.insert. rewrite table_insert_refused.
    split; intros [x [Hx H]]; exists x; (split; [exact Hx|]).
    + unfold Followings.clash in H. apply orb_true_iff in H.
      destruct H as [H|H]; [left; apply Z.eqb_eq in H
                           |right; apply String.eqb_eq in H]; congruence.
    + unfold Followings.clash. apply orb_true_iff.
      destruct H as [H|H]; [left; apply Z.eqb_eq
                           |right; apply String.eqb_eq]; congruence.
Qed.

(** X6: on table [webmention] the constraint on ([source], [target]) never
    decides: two rows clash exactly when they have the same [source].  A
    table holds at most one row per source, and a webmention from a source
    that has a row is refused whatever its target. *)
Theorem webmention_source_unique :
  (forall a b,
      Webmentions.clash a b
      = String.eqb (Webmentions.source a) (Webmentions.source b))
  /\ (forall t,
         table Webmentions.Webmention Webmentions.clash Webmentions.set_id
               Webmentions.id t ->
         NoDup (map Webmentions.source t))
  /\ (forall r t,
         Webmentions.insert r t = None
         <-> exists x,
               In x t /\ Webmentions.source x = Webmentions.source r).
Proof.
  assert (C : forall a b,
             Webmentions.clash a b
             = String.eqb (Webmentions.source a) (Webmentions.source b)).
  { intros a b.
    unfold Webmentions.clash, Webmentions.uix_source_target,
      Webmentions.unique_source.
    destruct (String.eqb (Webmentions.source a) (Webmentions.source b));
      [apply orb_true_r|reflexivity]. }
  split; [exact C|]. split.
  - intros t Ht.
    apply (table_unique_key _ _ _ Webmentions.id) with (key := Webmentions.source)
      in Ht; [exact Ht| | |].
    + intros a b. rewrite !C. apply String.eqb_sym.
    + reflexivity.
    + intros a b E. rewrite C, E. apply String.eqb_refl.
  - intros r t. unfold Webmentions.insert. rewrite table_insert_refused.
    split; intros [x [Hx H]]; exists x; (split; [exact Hx|]).
    + rewrite C in H. apply String.eqb_eq in H. congruence.
    + rewrite C, H. apply String.eqb_refl.
Qed.

(** X7: table [tagged_outbox_object] holds at most one row per (object,
    tag); tagging an object with a tag it does not carry yet is accepted and
    adds one row, also when other objects carry that tag. *)
Theorem tagged_outbox_object_unique :
  (forall t,
      table Tagged.TaggedOutboxObject Tagged.clash Tagged.set_id Tagged.id
            t ->
      NoDup (map (fun r => (Tagged.outbox_object_id r, Tagged.tag r)) t))
  /\ (forall r t,
         (forall x, In x t ->
                    Tagged.outbox_object_id x = Tagged.outbox_object_id r ->
                    Tagged.tag x <> Tagged.tag r) ->
         exists t',
           Tagged.insert r t = Some t'
           /\ List.length t' = S (List.length t))
  /\ (forall r t x,
         In x t ->
         Tagged.outbox_object_id x = Tagged.outbox_object_id r ->
         Tagged.tag x = Tagged.tag r ->
         Tagged.insert r t = None).
Proof.
  split; [|split].
  - intros t Ht.
    apply (table_unique_key _ _ _ Tagged.id)
      with (key := fun r => (Tagged.outbox_object_id r, Tagged.tag r))
      in Ht; [exact Ht| | |].
    + intros a b. unfold Tagged.clash.
      now rewrite Z.eqb_sym, String.eqb_sym.
    + reflexivity.
    + intros a b E. injection E as E1 E2. unfold Tagged.clash.
      now rewrite E1, E2, Z.eqb_refl, String.eqb_refl.
  - intros r t H. unfold Tagged.insert, table_insert.
    assert (E : existsb (Tagged.clash r) t = false).
    { destruct (existsb (Tagged.clash r) t) eqn:E; [|reflexivity].
      apply existsb_exists in E. destruct E as [x [Hx C]].
      unfold Tagged.clash in C. apply andb_true_iff in C.
      destruct C as [C1 C2]. apply Z.eqb_eq in C1.
      apply String.eqb_eq in C2. exfalso.
      apply (H x Hx); congruence. }
    rewrite E. eexists. split; [reflexivity|].
    rewrite length_app. simpl. lia.
  - intros r t x Hx E1 E2. apply table_insert_refused. exists x.
    split; [exact Hx|]. unfold Tagged.clash.
    now rewrite <- E1, <- E2, Z.eqb_refl, String.eqb_refl.
Qed.

(** ** The related object of a row *)

(** X8: [relates_to_anybox_object], on an inbox row as on an outbox row,
    gives the inbox object the row links when [relates_to_inbox_object_id] is
    set (not NULL, not 0), whatever its outbox link; otherwise the outbox
    object it links when [relates_to_outbox_object_id] is set; and [None],
    without raising, when neither is.  With both links set it prefers the
    inbox object, where [OutgoingActivity.anybox_object] prefers the outbox
    object. *)
Theorem relates_to_anybox_object_cases :
  (forall db r i,
      Inbox.relates_to_inbox_object_id r = Some i -> i <> 0 ->
      inbox_relates_to_anybox_object db r
      = option_map FromInbox (find (fun o => Inbox.id o =? i) (inbox db)))
  /\ (forall db r j,
         truthy (Inbox.relates_to_inbox_object_id r) = false ->
         Inbox.relates_to_outbox_object_id r = Some j -> j <> 0 ->
         inbox_relates_to_anybox_object db r
         = option_map FromOutbox
                      (find (fun o => Outbox.id o =? j) (outbox db)))
  /\ (forall db r,
         truthy (Inbox.relates_to_inbox_object_id r) = false ->
         truthy (Inbox.relates_to_outbox_object_id r) = false ->
         inbox_relates_to_anybox_object db r = None)
  /\ (forall db o i,
         Outbox.relates_to_inbox_object_id o = Some i -> i <> 0 ->
         outbox_relates_to_anybox_object db o
         = option_map FromInbox (find (fun x => Inbox.id x =? i) (inbox db)))
  /\ (forall db o j,
         truthy (Outbox.relates_to_inbox_object_id o) = false ->
         Outbox.relates_to_outbox_object_id o = Some j -> j <> 0 ->
         outbox_relates_to_anybox_object db o
         = option_map FromOutbox
                      (find (fun x => Outbox.id x =? j) (outbox db)))
  /\ (forall db o,
         truthy (Outbox.relates_to_inbox_object_id o) = false ->
         truthy (Outbox.relates_to_outbox_object_id o) = false ->
         outbox_relates_to_anybox_object db o = None)
  /\ (forall db r q i j,
         i <> 0 -> j <> 0 ->
         Inbox.relates_to_inbox_object_id r = Some i ->
         Inbox.relates_to_outbox_object_id r = Some j ->
         Outgoing.inbox_object_id q = Some i ->
         Outgoing.outbox_object_id q = Some j ->
         inbox_relates_to_anybox_object db r
         = option_map FromInbox (find (fun o => Inbox.id o =? i) (inbox db))
         /\ anybox_object db q
            = Ok (option_map FromOutbox
                             (find (fun o => Outbox.id o =? j) (outbox db)))).
Proof.
  assert (T : forall i, i <> 0 -> truthy (Some i) = true).
  { intros i H. unfold truthy. apply Z.eqb_neq in H. now rewrite H. }
  split; [|split; [|split; [|split; [|split; [|split]]]]].
  - intros db r i E H. unfold inbox_relates_to_anybox_object.
    rewrite E, (T i H). reflexivity.
  - intros db r j F E H. unfold inbox_relates_to_anybox_object.
    rewrite F, E, (T j H). reflexivity.
  - intros db r F G. unfold inbox_relates_to_anybox_object.
    now rewrite F, G.
  - intros db o i E H. unfold outbox_relates_to_anybox_object.
    rewrite E, (T i H). reflexivity.
  - intros db o j F E H. unfold outbox_relates_to_anybox_object.
    rewrite F, E, (T j H). reflexivity.
  - intros db o F G. unfold outbox_relates_to_anybox_object.
    now rewrite F, G.
  - intros db r q i j Hi Hj Ri Ro Qi Qo. split.
    + unfold inbox_relates_to_anybox_object. rewrite Ri, (T i Hi).
      reflexivity.
    + unfold anybox_object, outbox_object. rewrite Qo, (T j Hj).
      reflexivity.
Qed.

(** ** Strings *)

Lemma append_assoc (a b c : string) :
  ((a ++ b) ++ c)%string = (a ++ (b ++ c))%string.
Proof. induction a as [|x a IH]; cbn; [reflexivity|now rewrite IH]. Qed.

Lemma append_inv_head (a x y : string) :
  (a ++ x)%string = (a ++ y)%string -> x = y.
Proof.
  induction a as [|c a IH]; cbn; [auto|].
  intros H. injection H as H. now apply IH.
Qed.

Lemma prefix_append (p s : string) : prefix p (p ++ s) = true.
Proof.
  induction p as [|c p IH]; cbn.
  - destruct s; [|reflexivity]. cbn. destruct (string_dec "" ""); congruence.
  - destruct (ascii_dec c c); [exact IH|congruence].
Qed.

Lemma substring_head (p r : string) :
  substring 0 (String.length p) (p ++ r) = p.
Proof.
  induction p as [|c p IH]; cbn.
  - destruct r; reflexivity.
  - now rewrite IH.
Qed.

Lemma str_truthy_true (s : string) : s <> "" -> str_truthy s = true.
Proof.
  intros H. unfold str_truthy. apply negb_true_iff.
  now apply String.eqb_neq.
Qed.

(** ** URLs of outbox objects and of their attachments *)

(** X9: an Article with a non-empty slug and a non-empty [public_id] has the
    URL [BASE_URL/articles/<first 7 characters of public_id>/<slug>]; every
    other object (another type, no slug, an empty slug or an empty
    [public_id]) has the URL of the base class.  So two Articles with the
    same slug whose [public_id]s share their first 7 characters have the
    same URL. *)
Theorem article_url :
  (forall BASE_URL super_url s o,
      Outbox.ap_type o = "Article" -> s <> "" -> Outbox.public_id o <> "" ->
      OutboxObject_url BASE_URL super_url (Some s) o
      = Some (BASE_URL ++ "/articles/" ++ substring 0 7 (Outbox.public_id o)
              ++ "/" ++ s)%string)
  /\ (forall BASE_URL super_url slug o,
         Outbox.ap_type o <> "Article" \/ slug = None \/ slug = Some ""
         \/ Outbox.public_id o = "" ->
         OutboxObject_url BASE_URL super_url slug o = super_url)
  /\ (forall BASE_URL super_url super_url' s o o' p r r',
         Outbox.ap_type o = "Article" -> Outbox.ap_type o' = "Article" ->
         s <> "" -> String.length p = 7%nat ->
         Outbox.public_id o = (p ++ r)%string ->
         Outbox.public_id o' = (p ++ r')%string ->
         OutboxObject_url BASE_URL super_url (Some s) o
         = Some (BASE_URL ++ "/articles/" ++ p ++ "/" ++ s)%string
         /\ OutboxObject_url BASE_URL super_url' (Some s) o'
            = OutboxObject_url BASE_URL super_url (Some s) o).
Proof.
  assert (A : forall BASE_URL super_url s o,
             Outbox.ap_type o = "Article" -> s <> "" ->
             Outbox.public_id o <> "" ->
             OutboxObject_url BASE_URL super_url (Some s) o
             = Some (BASE_URL ++ "/articles/"
                     ++ substring 0 7 (Outbox.public_id o)
                     ++ "/" ++ s)%string).
  { intros B u s o T S P. unfold OutboxObject_url.
    rewrite T. cbn [opt_str_truthy str_or].
    rewrite (str_truthy_true s S), (str_truthy_true _ P). reflexivity. }
  split; [exact A|]. split.
  - intros B u slug o H. unfold OutboxObject_url.
    destruct H as [H|[H|[H|H]]].
    + apply String.eqb_neq in H. now rewrite H.
    + subst slug. cbn. now rewrite andb_false_r.
    + subst slug. cbn. now rewrite andb_false_r.
    + rewrite H. cbn. now rewrite andb_false_r.
  - intros B u u' s o o' p r r' T T' S L P P'.
    assert (N : forall x, (p ++ x)%string <> "").
    { intros x. destruct p; [discriminate L|discriminate]. }
    rewrite (A B u s o T S), (A B u' s o' T' S); rewrite ?P, ?P';
      try apply N.
    rewrite <- L, !substring_head. split; reflexivity.
Qed.

(** X10: [attachments] gives one document per attachment row of the object
    and none for the rows of other objects.  Each document has the same
    [url] and [proxiedUrl], under [BASE_URL/attachments/]; it has a
    [resizedUrl] exactly when the upload has a thumbnail, and then one under
    [BASE_URL/attachments/thumbnails/]; its name is the file name when the
    row has no alt text or an empty one. *)
Theorem attachments_documents :
  forall (BASE_URL : string)
         (table : list Attachments.OutboxObjectAttachment)
         (o : Outbox.OutboxObject),
    List.length (attachments BASE_URL table o)
    = List.length
        (filter (fun a => Attachments.outbox_object_id a =? Outbox.id o)
                table)
    /\ (forall d,
           In d (attachments BASE_URL table o) ->
           exists a,
             In a table /\ Attachments.outbox_object_id a = Outbox.id o
             /\ d = build_attachment BASE_URL a)
    /\ (forall a,
           Attachments.url (build_attachment BASE_URL a)
           = Attachments.proxiedUrl (build_attachment BASE_URL a)
           /\ prefix (BASE_URL ++ "/attachments/")
                     (Attachments.url (build_attachment BASE_URL a)) = true
           /\ (Attachments.resizedUrl (build_attachment BASE_URL a) = None
               <-> Uploads.has_thumbnail (Attachments.upload a) = false)
           /\ (forall u,
                  Attachments.resizedUrl (build_attachment BASE_URL a)
                  = Some u ->
                  prefix (BASE_URL ++ "/attachments/thumbnails/") u = true)
           /\ (Attachments.alt a = None \/ Attachments.alt a = Some "" ->
               Attachments.name (build_attachment BASE_URL a)
               = Attachments.filename a)).
Proof.
  intros BASE_URL table o. split; [|split].
  - unfold attachments, outbox_object_attachments. apply length_map.
  - intros d Hd. unfold attachments, outbox_object_attachments in Hd.
    apply in_map_iff in Hd. destruct Hd as [a [E Ha]].
    apply filter_In in Ha. destruct Ha as [Ha K]. apply Z.eqb_eq in K.
    exists a. auto.
  - intros a. split; [reflexivity|]. split; [|split; [|split]].
    + cbn [Attachments.url build_attachment]. unfold attachment_url.
      rewrite <- append_assoc. apply prefix_append.
    + cbn. destruct (Uploads.has_thumbnail (Attachments.upload a));
        split; congruence.
    + intros u. cbn [Attachments.resizedUrl build_attachment].
      destruct (Uploads.has_thumbnail (Attachments.upload a));
        [|discriminate].
      intros H.
      assert (E : u = (BASE_URL
                       ++ ("/attachments/thumbnails/"
                           ++ Uploads.content_hash (Attachments.upload a)
                           ++ "/" ++ Attachments.filename a))%string)
        by congruence.
      rewrite E, <- (append_assoc BASE_URL "/attachments/thumbnails/").
      apply prefix_append.
    + intros [H|H]; cbn; rewrite H; reflexivity.
Qed.

(** ** The activity builders *)

Section BuilderFacts.

Variable AS_CTX : json.
Variable AS_EXTENDED_CTX : json.
Variable AS_PUBLIC : string.
Variable remove_context : RawObject -> RawObject.

(** X11: [build_create_activity] never raises on a note that
    [build_note_object] built.  The Create it returns has the note's id
    followed by [/activity] as its id, the note's author as its actor, the
    note's [to], [cc] and [published], and the note without its context as
    its object; a note built without recipients, or with an empty list of
    them, is addressed to [AS_PUBLIC], and so is its Create. *)
Theorem create_of_built_note :
  forall (from_remote_actor : string) (outbox_public_id : option string)
         (content : string) (to cc : option (list string))
         (tags : option (list json)) (in_reply_to : option string)
         (published uuid_ctx uuid_id : string),
    let note :=
      build_note_object AS_CTX AS_PUBLIC from_remote_actor outbox_public_id
                        content to cc tags in_reply_to published uuid_ctx
                        uuid_id in
    exists create,
      build_create_activity AS_EXTENDED_CTX remove_context note
      = Return create
      /\ dict_get "type" create = Some (JStr "Create")
      /\ dict_get "id" create
         = Some (JStr ((from_remote_actor ++ "/note/"
                        ++ str_or outbox_public_id uuid_id)
                       ++ "/activity")%string)
      /\ dict_get "actor" create = Some (JStr from_remote_actor)
      /\ dict_get "to" create = dict_get "to" note
      /\ dict_get "cc" create = dict_get "cc" note
      /\ dict_get "published" create = Some (JStr published)
      /\ dict_get "object" create = Some (JDict (remove_context note))
      /\ (to = None \/ to = Some [] ->
          dict_get "to" create = Some (JList [JStr AS_PUBLIC])).
Proof.
  intros from pid content to cc tags irt published u1 u2 note.
  eexists. split; [reflexivity|].
  repeat split. intros [->| ->]; reflexivity.
Qed.

(** X12: [build_create_activity] returns exactly on the objects that have
    the keys [attributedTo], [id] and [published], the [id] being a string.
    The KeyError names the first of the three that is missing, in that
    order, a non-string [id] is a TypeError, and a missing [to] or [cc] is
    no error: the Create gets an empty list. *)
Theorem build_create_activity_errors :
  forall (obj : RawObject),
    ((exists create,
         build_create_activity AS_EXTENDED_CTX remove_context obj
         = Return create)
     <-> exists a s p,
         dict_get "attributedTo" obj = Some a
         /\ dict_get "id" obj = Some (JStr s)
         /\ dict_get "published" obj = Some p)
    /\ (dict_get "attributedTo" obj = None ->
        build_create_activity AS_EXTENDED_CTX remove_context obj
        = Throw (KeyError "attributedTo"))
    /\ (dict_get "attributedTo" obj <> None -> dict_get "id" obj = None ->
        build_create_activity AS_EXTENDED_CTX remove_context obj
        = Throw (KeyError "id"))
    /\ (forall s,
           dict_get "attributedTo" obj <> None ->
           dict_get "id" obj = Some (JStr s) ->
           dict_get "published" obj = None ->
           build_create_activity AS_EXTENDED_CTX remove_context obj
           = Throw (KeyError "published"))
    /\ (forall v,
           dict_get "attributedTo" obj <> None ->
           dict_get "id" obj = Some v -> (forall s, v <> JStr s) ->
           exists msg,
             build_create_activity AS_EXTENDED_CTX remove_context obj
             = Throw (TypeError msg))
    /\ (forall create,
           build_create_activity AS_EXTENDED_CTX remove_context obj
           = Return create ->
           dict_get "to" obj = None ->
           dict_get "to" create = Some (JList [])).
Proof.
  intros obj. unfold build_create_activity, dict_item, dict_get_default, bind.
  split; [|split; [|split; [|split; [|split]]]].
  - split.
    + intros [c H].
      destruct (dict_get "attributedTo" obj) as [a|]; [|discriminate].
      destruct (dict_get "id" obj) as [i|]; [|discriminate].
      destruct i as [| | |s| |]; try discriminate. cbn [add_str] in H.
      destruct (dict_get "published" obj) as [p|]; [|discriminate].
      exists a, s, p. auto.
    + intros (a & s & p & A & I & P). rewrite A, I, P. cbn [add_str].
      eexists. reflexivity.
  - intros A. rewrite A. reflexivity.
  - intros A I. destruct (dict_get "attributedTo" obj); [|congruence].
    rewrite I. reflexivity.
  - intros s A I P. destruct (dict_get "attributedTo" obj); [|congruence].
    rewrite I, P. reflexivity.
  - intros v A I N. destruct (dict_get "attributedTo" obj); [|congruence].
    rewrite I. destruct v as [| | |s| |]; cbn [add_str];
      try (eexists; reflexivity).
    exfalso. now apply (N s).
  - intros c H T.
    destruct (dict_get "attributedTo" obj) as [a|]; [|discriminate].
    destruct (dict_get "id" obj) as [i|]; [|discriminate].
    destruct i as [| | |s| |]; try discriminate. cbn [add_str] in H.
    destruct (dict_get "published" obj) as [p|]; [|discriminate].
    injection H as <-. rewrite T. reflexivity.
Qed.

Lemma id_of_builders (from_remote_actor other : string)
  (outbox_public_id : option string) (uuid : string) :
  dict_get "id" (build_follow_activity AS_CTX from_remote_actor other
                                       outbox_public_id uuid)
  = Some (JStr (from_remote_actor ++ "/follow/"
                ++ str_or outbox_public_id uuid)%string)
  /\ dict_get "id" (build_delete_activity AS_CTX from_remote_actor other
                                          outbox_public_id uuid)
     = Some (JStr (from_remote_actor ++ "/follow/"
                   ++ str_or outbox_public_id uuid)%string)
  /\ dict_get "id" (build_accept_activity AS_CTX from_remote_actor other
                                          outbox_public_id uuid)
     = Some (JStr (from_remote_actor ++ "/accept/"
                   ++ str_or outbox_public_id uuid)%string)
  /\ dict_get "id" (build_block_activity AS_CTX from_remote_actor other
                                         outbox_public_id uuid)
     = Some (JStr (from_remote_actor ++ "/block/"
                   ++ str_or outbox_public_id uuid)%string)
  /\ dict_get "id" (build_move_activity AS_CTX from_remote_actor other
                                        outbox_public_id uuid)
     = Some (JStr (from_remote_actor ++ "/move/"
                   ++ str_or outbox_public_id uuid)%string).
Proof. repeat split. Qed.

Lemma ids_differ (a x y : string) :
  x <> y -> Some (JStr (a ++ x)%string) <> Some (JStr (a ++ y)%string).
Proof.
  intros N H. apply N. apply (append_inv_head a).
  congruence.
Qed.

(** X13: for one actor, the ids that the builders of Follow, Accept, Block
    and Move activities give are pairwise different, whatever public ids
    they are given; the builder of Delete activities gives the id the
    builder of Follow activities gives for the same public id; and a public
    id that is [None] or empty is replaced by the drawn uuid. *)
Theorem built_activity_ids :
  forall (actor o1 o2 : string) (p1 p2 : option string) (u1 u2 : string),
    dict_get "id" (build_delete_activity AS_CTX actor o1 p1 u1)
    = dict_get "id" (build_follow_activity AS_CTX actor o2 p1 u1)
    /\ dict_get "id" (build_follow_activity AS_CTX actor o1 p1 u1)
       <> dict_get "id" (build_accept_activity AS_CTX actor o2 p2 u2)
    /\ dict_get "id" (build_follow_activity AS_CTX actor o1 p1 u1)
       <> dict_get "id" (build_block_activity AS_CTX actor o2 p2 u2)
    /\ dict_get "id" (build_follow_activity AS_CTX actor o1 p1 u1)
       <> dict_get "id" (build_move_activity AS_CTX actor o2 p2 u2)
    /\ dict_get "id" (build_accept_activity AS_CTX actor o1 p1 u1)
       <> dict_get "id" (build_block_activity AS_CTX actor o2 p2 u2)
    /\ dict_get "id" (build_accept_activity AS_CTX actor o1 p1 u1)
       <> dict_get "id" (build_move_activity AS_CTX actor o2 p2 u2)
    /\ dict_get "id" (build_block_activity AS_CTX actor o1 p1 u1)
       <> dict_get "id" (build_move_activity AS_CTX actor o2 p2 u2)
    /\ (p1 = None \/ p1 = Some "" ->
        dict_get "id" (build_follow_activity AS_CTX actor o1 p1 u1)
        = Some (JStr (actor ++ "/follow/" ++ u1)%string)).
Proof.
  intros actor o1 o2 p1 p2 u1 u2.
  destruct (id_of_builders actor o1 p1 u1) as (F1 & D1 & A1 & B1 & M1).
  destruct (id_of_builders actor o2 p2 u2) as (F2 & D2 & A2 & B2 & M2).
  destruct (id_of_builders actor o2 p1 u1) as (F3 & _).
  rewrite F1, D1, A1, B1, F3, A2, B2, M2.
  split; [reflexivity|].
  repeat (split; [apply ids_differ; discriminate|]).
  intros [->| ->]; reflexivity.
Qed.

End BuilderFacts.

(** ** Enumerations *)

(** X14: the members of [NotificationType], and those of [WebmentionType],
    have pairwise different values (what [enum.unique] asks), and looking a
    member up by its value gives the member back; a lookup that succeeds
    gives a member with that value. *)
Theorem enum_values_round_trip :
  (forall t, NotificationType_of_value (NotificationType_value t) = Some t)
  /\ (forall s t,
         NotificationType_of_value s = Some t -> NotificationType_value t = s)
  /\ (forall a b,
         NotificationType_value a = NotificationType_value b -> a = b)
  /\ (forall t, WebmentionType_of_value (WebmentionType_value t) = Some t)
  /\ (forall s t,
         WebmentionType_of_value s = Some t -> WebmentionType_value t = s)
  /\ (forall a b, WebmentionType_value a = WebmentionType_value b -> a = b).
Proof.
  assert (N : forall t,
             NotificationType_of_value (NotificationType_value t) = Some t)
    by (intros []; reflexivity).
  assert (W : forall t,
             WebmentionType_of_value (WebmentionType_value t) = Some t)
    by (intros []; reflexivity).
  split; [exact N|]. split; [|split; [|split; [exact W|split]]].
  - intros s t H. unfold NotificationType_of_value in H.
    apply find_some in H. destruct H as [_ H]. now apply String.eqb_eq.
  - intros a b H. pose proof (N a) as Ha. rewrite H, N in Ha. congruence.
  - intros s t H. unfold WebmentionType_of_value in H.
    apply find_some in H. destruct H as [_ H]. now apply String.eqb_eq.
  - intros a b H. pose proof (W a) as Ha. rewrite H, W in Ha. congruence.
Qed.
